(** * sqlalchemy_searchable: search-term sanitising and filter construction

    A shallow embedding of [sqlalchemy_searchable/__init__.py].

    Strings are byte strings ([string], i.e. sequences of 8-bit [ascii]);
    the whitespace class is the one [\s] and [str.strip()] share on such
    strings: space, tab, line feed, vertical tab, form feed and carriage
    return.  Joining byte strings with the unicode literal [u' & '] decodes
    each of them as ASCII and raises [UnicodeDecodeError] on a byte above
    127; a unicode string and the byte string of the same ASCII text are
    the same value here.

    Exceptions are values of [pyexn]; a computation that may raise returns
    a [result].  The host query object (SQLAlchemy's [Query]) is an
    interface, [QueryContext]; the classes handed to the class methods of
    [Searchable] are values of [pyclass], carrying the attributes the module
    reads, as Python's attribute lookup resolves them. *)

From Stdlib Require Import Bool List Arith Lia.
From Stdlib Require Import Ascii String.
Import ListNotations.

Open Scope list_scope.
Open Scope string_scope.

(** ** Python strings *)

Module PyStr.

(** The double-quote character. *)
Definition dquote_char : ascii := ascii_of_nat 34.
Definition dquote : string := String dquote_char EmptyString.

Definition is_empty (s : string) : bool :=
  match s with
  | EmptyString => true
  | String _ _ => false
  end.

(** [c.isspace()] on a byte string. *)
Definition isspace (c : ascii) : bool :=
  let n := nat_of_ascii c in
  Nat.eqb n 32 || (Nat.leb 9 n && Nat.leb n 13).

Fixpoint all_chars (p : ascii -> bool) (s : string) : bool :=
  match s with
  | EmptyString => true
  | String c s' => p c && all_chars p s'
  end.

Fixpoint lstrip (s : string) : string :=
  match s with
  | EmptyString => EmptyString
  | String c s' => if isspace c then lstrip s' else s
  end.

Fixpoint rstrip (s : string) : string :=
  match s with
  | EmptyString => EmptyString
  | String c s' =>
      let r := rstrip s' in
      if isspace c && is_empty r then EmptyString else String c r
  end.

(** [s.strip()]: leading and trailing whitespace dropped. *)
Definition strip (s : string) : string := rstrip (lstrip s).

(** Puts [c] in front of the first piece of a split. *)
Definition cons_head (c : ascii) (pieces : list string) : list string :=
  match pieces with
  | [] => [String c EmptyString]
  | w :: ws => String c w :: ws
  end.

(** [split_from sep skip s]: the pieces of [s] between the occurrences of
    [sep], scanning from the left; [skip] counts the characters of an
    occurrence of [sep] that are still to be passed over. *)
Fixpoint split_from (sep : string) (skip : nat) (s : string) : list string :=
  match s with
  | EmptyString => [EmptyString]
  | String c s' =>
      match skip with
      | S k => split_from sep k s'
      | O =>
          if String.prefix sep s
          then EmptyString :: split_from sep (String.length sep - 1) s'
          else cons_head c (split_from sep 0 s')
      end
  end.

(** [s.split(sep)] for a separator that is not empty (Python raises
    [ValueError] on an empty one; every call in this development passes
    a literal separator). *)
Definition split (sep s : string) : list string := split_from sep 0 s.

(** [sep.join(pieces)]. *)
Definition join (sep : string) (pieces : list string) : string :=
  String.concat sep pieces.

(** [s.removesuffix(suffix)]: [s] without a trailing [suffix], [s] itself
    when it does not end with it. *)
Fixpoint removesuffix (suffix s : string) : string :=
  if String.eqb s suffix then EmptyString
  else match s with
       | EmptyString => EmptyString
       | String c s' => String c (removesuffix suffix s')
       end.

End PyStr.
Import PyStr.

(** ** The term sanitiser *)

(** The characters named in the class [[():|&!*@#\s]], without [\s]. *)
Definition reserved (c : ascii) : bool :=
  existsb (Ascii.eqb c) (list_ascii_of_string "():|&!*@#").

(** Membership in the character class [[():|&!*@#\s]]. *)
Definition illegal (c : ascii) : bool := reserved c || isspace c.

(** [re.sub(r'[():|&!*@#\s]+', ' ', query)]: every maximal run of
    characters of the class is replaced by one space.  [in_run] records
    that the previous character belonged to the run being replaced. *)
Fixpoint re_sub_illegal (in_run : bool) (query : string) : string :=
  match query with
  | EmptyString => EmptyString
  | String c rest =>
      if illegal c then
        if in_run then re_sub_illegal true rest
        else String " " (re_sub_illegal true rest)
      else String c (re_sub_illegal false rest)
  end.

(** The value of [query] after line 11. *)
Definition cleaned (query : string) : string :=
  strip (re_sub_illegal false query).

(** The local [terms] of [safe_search_terms] ([[]] on the early return). *)
Definition search_terms (query : string) : list string :=
  let query := cleaned query in
  if is_empty query then [] else split " " query.

Definition default_wildcard : string := ":*".

Definition safe_search_terms (query : string) (wildcard : string)
  : list string :=
  let query := strip (re_sub_illegal false query) in
  if is_empty query then []
  else
    let terms := split " " query in
    map (fun a => a ++ wildcard) terms.

(** ** Exceptions *)

Inductive pyexn : Type :=
| AttributeError
| KeyError
| IndexError
| UnicodeDecodeError
| Exception (msg : string).

Inductive result (A : Type) : Type :=
| Ok (a : A)
| Raise (e : pyexn).

Arguments Ok {A} a.
Arguments Raise {A} e.

Definition bind {A B : Type} (r : result A) (k : A -> result B) : result B :=
  match r with
  | Ok a => k a
  | Raise e => Raise e
  end.

Notation "x <- r ;; k" := (bind r (fun x => k))
  (at level 61, r at next level, right associativity).

Definition raises {A : Type} (r : result A) : bool :=
  match r with
  | Ok _ => false
  | Raise _ => true
  end.

(** ** Python values the module formats and tests *)

(** A value that is [None] or a [str]. *)
Definition pystr := option string.

(** [not v]. *)
Definition not_ (v : pystr) : bool :=
  match v with
  | None => true
  | Some s => is_empty s
  end.

(** ['%s' % v]. *)
Definition percent_s (v : pystr) : string :=
  match v with
  | None => "None"
  | Some s => s
  end.

(** [d[key]] on a dict with string keys; [None] stands for [KeyError]. *)
Fixpoint dict_get (d : list (string * string)) (key : string)
  : option string :=
  match d with
  | [] => None
  | (k, v) :: d' => if String.eqb k key then Some v else dict_get d' key
  end.

(** [c] is an ASCII character: its code is below 128. *)
Definition is_ascii (c : ascii) : bool := Nat.ltb (nat_of_ascii c) 128.

(** [u' & '.join(pieces)] for a unicode separator and byte strings: every
    piece is decoded as ASCII first, which raises [UnicodeDecodeError] on
    a byte above 127. *)
Definition unicode_join (sep : string) (pieces : list string)
  : result string :=
  if forallb (all_chars is_ascii) pieces then Ok (join sep pieces)
  else Raise UnicodeDecodeError.

(** ** Classes *)

(** The class attributes this module reads and writes, as attribute lookup
    on the class resolves them; [None] is an attribute that is absent
    (reading it raises [AttributeError], [hasattr] is [False]). *)
Record class_attrs : Type := {
  __name__ : string;
  __tablename__ : option string;
  __table__ : option string;
  __search_options__ : option (list (string * string));
  __searchable_columns__ : list string;
  __search_vector_name__ : string;
  __search_catalog__ : string;
  __search_trigger_name__ : option string;
  __search_index_name__ : option string
}.

#[warnings="-register-all"]
Inductive pyclass : Type :=
| object_class
| SearchableClass
| Class (bases : list pyclass) (attrs : class_attrs).

(** [cls.__bases__]. *)
Definition __bases__ (cls : pyclass) : list pyclass :=
  match cls with
  | object_class => []
  | SearchableClass => [object_class]
  | Class bases _ => bases
  end.

Definition is_Searchable (cls : pyclass) : bool :=
  match cls with
  | SearchableClass => true
  | _ => false
  end.

(** [Searchable in cls.__bases__]. *)
Definition Searchable_in_bases (cls : pyclass) : bool :=
  existsb is_Searchable (__bases__ cls).

(** [issubclass(cls, Searchable)]. *)
Fixpoint issubclass_Searchable (cls : pyclass) : bool :=
  match cls with
  | object_class => false
  | SearchableClass => true
  | Class bases _ =>
      (fix any (l : list pyclass) : bool :=
         match l with
         | [] => false
         | b :: l' => issubclass_Searchable b || any l'
         end) bases
  end.

(** The attributes of [Searchable] itself (lines 115-119). *)
Definition Searchable_attrs : class_attrs := {|
  __name__ := "Searchable";
  __tablename__ := None;
  __table__ := None;
  __search_options__ := None;
  __searchable_columns__ := [];
  __search_vector_name__ := "search_vector";
  __search_catalog__ := "pg_catalog.english";
  __search_trigger_name__ := None;
  __search_index_name__ := None
|}.

(** The attributes of a subclass of [Searchable]. *)
Definition attrs_of (cls : pyclass) : class_attrs :=
  match cls with
  | Class _ attrs => attrs
  | _ => Searchable_attrs
  end.

(** Reading an attribute that may be absent. *)
Definition getattr {A : Type} (a : option A) : result A :=
  match a with
  | Some v => Ok v
  | None => Raise AttributeError
  end.

(** ** DDL and the event registry *)

Record DDL : Type := {
  statement : string;
  execute_if_dialect : string
}.

(** A listener registered by [event.listen(target, identifier, fn)]. *)
Record listener : Type := {
  target : string;
  identifier : string;
  fn : DDL
}.

Definition nl : string := String (ascii_of_nat 10) EmptyString.
Definition indent : string := "                ".

Module Searchable.

Definition __search_args_init__ (cls : pyclass) : result pyclass :=
  match cls with
  | Class bases a =>
      trigger <-
        match __search_trigger_name__ a with
        | Some t => Ok t
        | None =>
            tablename <- getattr (__tablename__ a) ;;
            Ok (tablename ++ "_search_update")
        end ;;
      index <-
        match __search_index_name__ a with
        | Some i => Ok i
        | None =>
            tablename <- getattr (__tablename__ a) ;;
            Ok (tablename ++ "_search_index")
        end ;;
      Ok (Class bases {|
            __name__ := __name__ a;
            __tablename__ := __tablename__ a;
            __table__ := __table__ a;
            __search_options__ := __search_options__ a;
            __searchable_columns__ := __searchable_columns__ a;
            __search_vector_name__ := __search_vector_name__ a;
            __search_catalog__ := __search_catalog__ a;
            __search_trigger_name__ := Some trigger;
            __search_index_name__ := Some index
          |})
  | _ => Raise AttributeError
  end.

(** The method is found on [cls] only when [cls] is [Searchable] or
    derives from it; otherwise the call raises [AttributeError].  The
    [for] loop returns in its first iteration; over no bases it falls
    through and the method returns [None]. *)
Fixpoint _inspect_searchable_tablename (cls : pyclass) : result pystr :=
  if negb (issubclass_Searchable cls) then Raise AttributeError
  else
    match cls with
    | object_class => Raise AttributeError
    | SearchableClass => Raise AttributeError
    | Class bases a =>
        if existsb is_Searchable bases then
          tablename <- getattr (__tablename__ a) ;;
          Ok (Some tablename)
        else
          match bases with
          | [] => Ok None
          | class_ :: _ => _inspect_searchable_tablename class_
          end
    end.

Definition __make_ddls (cls : pyclass) : result (list DDL) :=
  let a := attrs_of cls in
  tablename <- getattr (__tablename__ a) ;;
  index_name <- getattr (__search_index_name__ a) ;;
  trigger_name <- getattr (__search_trigger_name__ a) ;;
  let vector_name := __search_vector_name__ a in
  Ok [ {| statement :=
            nl ++ indent ++ "ALTER TABLE " ++ tablename ++ nl
            ++ indent ++ "ADD COLUMN " ++ vector_name ++ " tsvector" ++ nl
            ++ indent;
          execute_if_dialect := "postgresql" |};
       {| statement :=
            nl ++ indent ++ "CREATE INDEX " ++ index_name ++ " " ++ nl
            ++ indent ++ "ON " ++ tablename ++ nl
            ++ indent ++ "USING gin(" ++ vector_name ++ ")" ++ nl
            ++ indent;
          execute_if_dialect := "postgresql" |};
       {| statement :=
            nl ++ indent ++ "CREATE TRIGGER " ++ trigger_name ++ nl
            ++ indent ++ "BEFORE UPDATE OR INSERT ON " ++ tablename ++ nl
            ++ indent ++ "FOR EACH ROW EXECUTE PROCEDURE" ++ nl
            ++ indent ++ "tsvector_update_trigger("
            ++ join ", " (List.app [vector_name;
                                    "'" ++ __search_catalog__ a ++ "'"]
                                   (__searchable_columns__ a))
            ++ ")" ++ nl
            ++ indent;
          execute_if_dialect := "postgresql" |};
       {| statement :=
            nl ++ indent ++ "ALTER TABLE " ++ tablename ++ nl
            ++ indent ++ "ADD NEW FULLTEXT("
            ++ join ", " (__searchable_columns__ a) ++ ")" ++ nl
            ++ indent;
          execute_if_dialect := "mysql" |} ].

(** [registry] is the list of listeners [event.listen] has recorded; the
    result is the registry after the call. *)
Definition define_search_vector (cls : pyclass) (registry : list listener)
  : result (list listener) :=
  if negb (Searchable_in_bases cls) then Ok registry
  else
    match __searchable_columns__ (attrs_of cls) with
    | [] =>
        Raise (Exception ("No searchable columns defined for model "
                          ++ __name__ (attrs_of cls)))
    | _ :: _ =>
        ddls <- __make_ddls cls ;;
        match ddls with
        | [] => Ok registry
        | _ :: _ =>
            table <- getattr (__table__ (attrs_of cls)) ;;
            Ok (List.app registry
                  (map (fun ddl => {| target := table;
                                      identifier := "after_create";
                                      fn := ddl |}) ddls))
        end
    end.

End Searchable.

(** The [instrument_class] listener (lines 103-110): the class after
    [__search_args_init__] and the registry after [define_search_vector]. *)
Definition attach_search_indexes (class_ : pyclass)
  (registry : list listener) : result (pyclass * list listener) :=
  if issubclass_Searchable class_ then
    class_' <- Searchable.__search_args_init__ class_ ;;
    registry' <- Searchable.define_search_vector class_' registry ;;
    Ok (class_', registry')
  else Ok (class_, registry).

(** ** The query context *)

(** What the module asks of the query object it is given. *)
Class QueryContext (Q : Type) : Type := {
  (** [query.filter(criterion)] *)
  query_filter : Q -> string -> Q;
  (** [query.params(name=value)] *)
  query_params : Q -> string -> string -> Q;
  (** [query._entities[0].entity_zero.class_] *)
  entity_zero_class : Q -> result pyclass;
  (** [hasattr(query, 'search_filter')]: the query class mixes in
      [SearchQueryMixin], which is what defines that attribute. *)
  has_search_filter : Q -> bool
}.

(** ** The filter builder *)

Definition quote_identifier (identifier : pystr) : string :=
  dquote ++ percent_s identifier ++ dquote.

(** Lines 50-59: the table name the predicate is built for. *)
Definition resolve_tablename {Q : Type} `{QueryContext Q}
  (query : Q) (tablename : pystr) : result pystr :=
  if not_ tablename then
    entity <- entity_zero_class query ;;
    match __search_options__ (attrs_of entity) with
    | None => Searchable._inspect_searchable_tablename entity
    | Some options =>
        match dict_get options "tablename" with
        | Some name => Ok (Some name)
        | None => Searchable._inspect_searchable_tablename entity
        end
    end
  else Ok tablename.

Definition search_filter {Q : Type} `{QueryContext Q}
  (query : Q) (term : string) (tablename language : pystr) : result string :=
  tablename <- resolve_tablename query tablename ;;
  if not_ language then
    Ok (quote_identifier tablename ++ ".search_vector @@ to_tsquery(:term)")
  else
    Ok (quote_identifier tablename ++ ".search_vector @@ to_tsquery('"
        ++ percent_s language ++ "', :term)").

Module SearchQueryMixin.

Definition search_filter {Q : Type} `{QueryContext Q}
  (self : Q) (term : string) (tablename language : pystr)
  : result string :=
  search_filter self term tablename language.

Definition search {Q : Type} `{QueryContext Q}
  (self : Q) (search_query : string) (tablename language : pystr)
  : result Q :=
  if is_empty search_query then Ok self
  else
    let terms := safe_search_terms search_query default_wildcard in
    match terms with
    | [] => Ok self
    | _ :: _ =>
        criterion <- search_filter self search_query tablename language ;;
        let filtered := query_filter self criterion in
        term <- unicode_join " & " terms ;;
        Ok (query_params filtered "term" term)
    end.

End SearchQueryMixin.

Definition search {Q : Type} `{QueryContext Q}
  (query : Q) (search_query : string) (tablename language : pystr)
  : result Q :=
  if is_empty search_query then Ok query
  else
    let terms := safe_search_terms search_query default_wildcard in
    match terms with
    | [] => Ok query
    | _ :: _ =>
        query <-
          (if has_search_filter query then
             criterion <- SearchQueryMixin.search_filter
                            query search_query tablename language ;;
             Ok (query_filter query criterion)
           else
             criterion <- search_filter
                            query search_query tablename language ;;
             Ok (query_filter query criterion)) ;;
        Ok (query_params query "term" (join " & " terms))
    end.

(** ** A query context to run the module on *)

(** A query that records its entities, the criteria attached to it and the
    parameters bound on it. *)
Record Query : Type := {
  _entities : list pyclass;
  criteria : list string;
  bound : list (string * string);
  mixes_in_SearchQueryMixin : bool
}.

#[export] Instance Query_context : QueryContext Query := {
  query_filter q criterion :=
    {| _entities := _entities q;
       criteria := List.app (criteria q) [criterion];
       bound := bound q;
       mixes_in_SearchQueryMixin := mixes_in_SearchQueryMixin q |};
  query_params q name value :=
    {| _entities := _entities q;
       criteria := criteria q;
       bound := (name, value) :: bound q;
       mixes_in_SearchQueryMixin := mixes_in_SearchQueryMixin q |};
  entity_zero_class q :=
    match _entities q with
    | [] => Raise IndexError
    | entity :: _ => Ok entity
    end;
  has_search_filter q := mixes_in_SearchQueryMixin q
}.

(** The two predicate strings of lines 62 and 66, for a table and a
    language. *)
Definition predicate (table language : pystr) : string :=
  if not_ language then
    quote_identifier table ++ ".search_vector @@ to_tsquery(:term)"
  else
    quote_identifier table ++ ".search_vector @@ to_tsquery('"
    ++ percent_s language ++ "', :term)".

(** ** Sample models and queries *)

Module Sample.

Definition model (name : string) (tablename : option string)
  (columns : list string) : class_attrs := {|
  __name__ := name;
  __tablename__ := tablename;
  __table__ := tablename;
  __search_options__ := None;
  __searchable_columns__ := columns;
  __search_vector_name__ := "search_vector";
  __search_catalog__ := "pg_catalog.english";
  __search_trigger_name__ := None;
  __search_index_name__ := None
|}.

(** The declarative base: [class Base(object)]. *)
Definition Base : pyclass := Class [object_class] (model "Base" None []).

(** [class Article(Base, Searchable)] with two searchable columns. *)
Definition Article : pyclass :=
  Class [Base; SearchableClass]
    (model "Article" (Some "article") ["name"; "content"]).

(** [class Draft(Base, Searchable)] without [__searchable_columns__]. *)
Definition Draft : pyclass :=
  Class [Base; SearchableClass] (model "Draft" (Some "draft") []).

(** [class User(Base)]: a mapped class that is not searchable. *)
Definition User : pyclass :=
  Class [Base] (model "User" (Some "user") []).

Definition query_of (entity : pyclass) (mixin : bool) : Query := {|
  _entities := [entity];
  criteria := [];
  bound := [];
  mixes_in_SearchQueryMixin := mixin
|}.

End Sample.

(** ** Words of a query *)

(** The pieces of [query] between its characters of the class
    [[():|&!*@#\s]], empty pieces included. *)
Fixpoint fields (query : string) : list string :=
  match query with
  | EmptyString => [EmptyString]
  | String c rest =>
      if illegal c then EmptyString :: fields rest
      else cons_head c (fields rest)
  end.

(** The maximal runs of characters outside the class, in order. *)
Definition legal_words (query : string) : list string :=
  List.filter (fun w => negb (is_empty w)) (fields query).

(** A word: not empty, no reserved character, no whitespace. *)
Definition is_word (w : string) : bool :=
  negb (is_empty w) && all_chars (fun c => negb (illegal c)) w.

(** ** The sanitiser and the re-split as the specification words them *)

Module Spec.

(** "remove every character in the reserved set" *)
Fixpoint remove_reserved (raw : string) : string :=
  match raw with
  | EmptyString => EmptyString
  | String c rest =>
      if reserved c then remove_reserved rest
      else String c (remove_reserved rest)
  end.

(** "collapse all whitespace runs to single spaces" *)
Fixpoint collapse_whitespace (in_run : bool) (s : string) : string :=
  match s with
  | EmptyString => EmptyString
  | String c rest =>
      if isspace c then
        if in_run then collapse_whitespace true rest
        else String " " (collapse_whitespace true rest)
      else String c (collapse_whitespace false rest)
  end.

(** "trim leading/trailing space.  If the result is empty, return an
    empty sequence.  Otherwise split on single spaces into tokens, and
    append a fixed suffix marker to every token." *)
Definition sanitize (raw : string) : list string :=
  let s := strip (collapse_whitespace false (remove_reserved raw)) in
  if is_empty s then []
  else map (fun token => token ++ default_wildcard) (split " " s).

(** "re-splitting on [" & "] then stripping the suffix marker" *)
Definition resplit (joined : string) : list string :=
  map (removesuffix default_wildcard) (split " & " joined).

End Spec.

(** ** What the sanitiser keeps, and where the inspection ends *)

(** The characters of [query] outside the class [[():|&!*@#\s]], in
    order. *)
Fixpoint keep_legal (query : string) : string :=
  match query with
  | EmptyString => EmptyString
  | String c rest =>
      if illegal c then keep_legal rest else String c (keep_legal rest)
  end.

(** The attributes of the first class that has [Searchable] among its own
    bases, on the path from [cls] through the first base of each class. *)
Fixpoint searchable_root (cls : pyclass) : option class_attrs :=
  match cls with
  | object_class => None
  | SearchableClass => None
  | Class bases a =>
      if existsb is_Searchable bases then Some a
      else
        match bases with
        | [] => None
        | class_ :: _ => searchable_root class_
        end
  end.

(** * Properties *)

(** ** Strings *)

Section StringFacts.

Lemma is_empty_true (s : string) : is_empty s = true <-> s = "".
Proof. destruct s; simpl; split; congruence. Qed.

Lemma append_empty_r (s : string) : s ++ "" = s.
Proof. induction s as [|c s IH]; simpl; [reflexivity | now rewrite IH]. Qed.

Lemma append_assoc (s t u : string) : (s ++ t) ++ u = s ++ t ++ u.
Proof. induction s as [|c s IH]; simpl; [reflexivity | now rewrite IH]. Qed.

Lemma all_chars_app (p : ascii -> bool) (s t : string) :
  all_chars p (s ++ t) = all_chars p s && all_chars p t.
Proof.
  induction s as [|c s IH]; simpl; [reflexivity|].
  now rewrite IH, andb_assoc.
Qed.

Lemma all_chars_weaken (p p' : ascii -> bool) (s : string) :
  (forall c, p c = true -> p' c = true) ->
  all_chars p s = true -> all_chars p' s = true.
Proof.
  intros Hpp'. induction s as [|c s IH]; simpl; [reflexivity|].
  rewrite !andb_true_iff. intros [Hc Hs]. auto.
Qed.

Lemma join_cons_head (sep : string) (c : ascii) (w : string)
  (ws : list string) :
  join sep (String c w :: ws) = String c (join sep (w :: ws)).
Proof. destruct ws; reflexivity. Qed.

Lemma join_cons_cons (sep w w' : string) (ws : list string) :
  join sep (w :: w' :: ws) = w ++ sep ++ join sep (w' :: ws).
Proof. reflexivity. Qed.

Lemma split_from_nonempty (sep : string) (k : nat) (s : string) :
  split_from sep k s <> [].
Proof.
  revert k. induction s as [|c s IH]; intros k; cbn [split_from].
  - discriminate.
  - destruct k as [|k]; [|apply IH].
    destruct (String.prefix sep (String c s)); [discriminate|].
    unfold cons_head. destruct (split_from sep 0 s); discriminate.
Qed.

(** Passing over the rest of an occurrence of the separator. *)
Lemma split_from_skip (sep u s : string) :
  split_from sep (String.length u) (u ++ s) = split_from sep 0 s.
Proof.
  induction u as [|c u IH]; simpl; [reflexivity | exact IH].
Qed.

Lemma prefix_app (sep s : string) : String.prefix sep (sep ++ s) = true.
Proof.
  induction sep as [|c sep IH]; simpl; [now destruct s|].
  destruct (ascii_dec c c); [exact IH | congruence].
Qed.

(** An occurrence of the separator at the front ends an empty piece. *)
Lemma split_sep_front (c : ascii) (sep' s : string) :
  split (String c sep') (String c sep' ++ s)
  = "" :: split (String c sep') s.
Proof.
  unfold split. cbn [append split_from].
  change (String c (sep' ++ s)) with (String c sep' ++ s).
  rewrite prefix_app.
  replace (String.length (String c sep') - 1) with (String.length sep')
    by (cbn [String.length]; lia).
  now rewrite split_from_skip.
Qed.

(** A character other than the first one of the separator belongs to the
    piece being read. *)
Lemma split_other_char (c a : ascii) (sep' s : string) :
  a <> c ->
  split (String c sep') (String a s)
  = cons_head a (split (String c sep') s).
Proof.
  intros Hac. unfold split. cbn [split_from String.prefix].
  destruct (ascii_dec c a); [congruence | reflexivity].
Qed.

Lemma split_piece (c : ascii) (sep' w s : string) :
  all_chars (fun a => negb (Ascii.eqb a c)) w = true ->
  split (String c sep') (w ++ s)
  = match split (String c sep') s with
    | [] => [w]
    | p :: ps => (w ++ p) :: ps
    end.
Proof.
  induction w as [|a w IH]; simpl.
  - intros _. destruct (split (String c sep') s) eqn:E; [|reflexivity].
    exfalso. exact (split_from_nonempty _ _ _ E).
  - rewrite andb_true_iff, negb_true_iff, Ascii.eqb_neq. intros [Hac Hw].
    rewrite split_other_char by exact Hac. rewrite IH by exact Hw.
    destruct (split (String c sep') s); reflexivity.
Qed.

(** Splitting what [join] produced gives the pieces back, when no piece
    holds the first character of the separator. *)
Lemma split_join (c : ascii) (sep' w : string) (ws : list string) :
  Forall (fun p => all_chars (fun a => negb (Ascii.eqb a c)) p = true)
    (w :: ws) ->
  split (String c sep') (join (String c sep') (w :: ws)) = w :: ws.
Proof.
  revert w. induction ws as [|w' ws IH]; intros w Hall.
  - inversion Hall as [|? ? Hw _]; subst. simpl.
    rewrite <- (append_empty_r w) at 1. rewrite split_piece by exact Hw.
    simpl. now rewrite append_empty_r.
  - inversion Hall as [|? ? Hw Hrest]; subst.
    rewrite join_cons_cons, split_piece by exact Hw.
    rewrite split_sep_front. now rewrite append_empty_r, IH.
Qed.

Lemma length_app (s t : string) :
  String.length (s ++ t) = String.length s + String.length t.
Proof. induction s as [|c s IH]; simpl; [reflexivity | now rewrite IH]. Qed.

Lemma removesuffix_unfold (suffix s : string) :
  removesuffix suffix s
  = if String.eqb s suffix then ""
    else match s with
         | EmptyString => EmptyString
         | String c s' => String c (removesuffix suffix s')
         end.
Proof. destruct s; reflexivity. Qed.

Lemma removesuffix_app (suffix w : string) :
  removesuffix suffix (w ++ suffix) = w.
Proof.
  induction w as [|c w IH].
  - simpl. now rewrite removesuffix_unfold, String.eqb_refl.
  - rewrite removesuffix_unfold.
    assert (Hne : String.eqb (String c w ++ suffix) suffix = false).
    { apply String.eqb_neq. intros Heq.
      apply (f_equal String.length) in Heq.
      rewrite length_app in Heq. simpl in Heq. lia. }
    rewrite Hne. cbn [append]. now rewrite IH.
Qed.

End StringFacts.

(** ** The term sanitiser *)

Section Sanitiser.

Lemma isspace_illegal (c : ascii) : isspace c = true -> illegal c = true.
Proof. unfold illegal. intros ->. apply orb_true_r. Qed.

Lemma legal_not_space (c : ascii) : illegal c = false -> isspace c = false.
Proof. unfold illegal. now intros [_ H]%orb_false_iff. Qed.

Lemma legal_not_reserved (c : ascii) :
  illegal c = false -> reserved c = false.
Proof. unfold illegal. now intros [H _]%orb_false_iff. Qed.

Lemma lstrip_re_sub (in_run : bool) (query : string) :
  lstrip (re_sub_illegal in_run query) = re_sub_illegal true query.
Proof.
  revert in_run. induction query as [|c rest IH]; intros in_run.
  - reflexivity.
  - cbn [re_sub_illegal]. destruct (illegal c) eqn:Hc.
    + destruct in_run; [apply IH|].
      change (lstrip (String " " (re_sub_illegal true rest)))
        with (lstrip (re_sub_illegal true rest)).
      apply IH.
    + cbn [lstrip]. now rewrite (legal_not_space c Hc).
Qed.

Lemma rstrip_legal (c : ascii) (s : string) :
  illegal c = false -> rstrip (String c s) = String c (rstrip s).
Proof. intros Hc. cbn [rstrip]. now rewrite (legal_not_space c Hc). Qed.

Lemma rstrip_space (s : string) :
  rstrip (String " " s)
  = if is_empty (rstrip s) then "" else String " " (rstrip s).
Proof. reflexivity. Qed.

Lemma fields_nonempty (query : string) : fields query <> [].
Proof.
  destruct query as [|c rest]; cbn [fields]; [discriminate|].
  destruct (illegal c); [discriminate|].
  unfold cons_head. destruct (fields rest); discriminate.
Qed.

Lemma legal_words_not_empty (query : string) :
  Forall (fun w => is_empty w = false) (legal_words query).
Proof.
  apply Forall_forall. intros w Hw. unfold legal_words in Hw.
  apply filter_In in Hw. now apply negb_true_iff.
Qed.

Lemma join_not_empty (sep w : string) (ws : list string) :
  is_empty w = false -> is_empty (join sep (w :: ws)) = false.
Proof.
  destruct w as [|a w]; [discriminate|]. intros _.
  now rewrite join_cons_head.
Qed.

(** After the substitution and the right strip, the words of the query
    are left, one space between two of them. *)
Lemma rstrip_re_sub (query : string) :
  rstrip (re_sub_illegal true query) = join " " (legal_words query)
  /\ match fields query with
     | [] => True
     | w :: ws =>
         rstrip (re_sub_illegal false query)
         = join " " (w :: List.filter (fun w => negb (is_empty w)) ws)
     end.
Proof.
  induction query as [|c rest [IHrun IHword]].
  - split; reflexivity.
  - unfold legal_words in *. cbn [re_sub_illegal fields].
    destruct (illegal c) eqn:Hc.
    + split; [exact IHrun|].
      rewrite rstrip_space, IHrun.
      pose proof (legal_words_not_empty rest) as Hne.
      unfold legal_words in Hne.
      destruct (List.filter _ (fields rest)) as [|w ws]; [reflexivity|].
      inversion Hne as [|? ? Hw _]; subst.
      now rewrite (join_not_empty " " w ws Hw).
    + destruct (fields rest) as [|w ws] eqn:Hf;
        [now apply fields_nonempty in Hf|].
      cbn [cons_head List.filter is_empty negb].
      rewrite (rstrip_legal c _ Hc), IHword, join_cons_head.
      split; reflexivity.
Qed.

Lemma cleaned_words (query : string) :
  cleaned query = join " " (legal_words query).
Proof.
  unfold cleaned, strip. rewrite lstrip_re_sub. apply rstrip_re_sub.
Qed.

Lemma fields_legal (query : string) :
  Forall (fun w => all_chars (fun c => negb (illegal c)) w = true)
    (fields query).
Proof.
  induction query as [|c rest IH]; cbn [fields].
  - repeat constructor.
  - destruct (illegal c) eqn:Hc.
    + constructor; [reflexivity | exact IH].
    + destruct (fields rest) as [|w ws]; cbn [cons_head].
      * repeat constructor. simpl. now rewrite Hc.
      * inversion IH as [|? ? Hw Hws]; subst. constructor; [|exact Hws].
        simpl. now rewrite Hc, Hw.
Qed.

Lemma legal_words_are_words (query : string) :
  Forall (fun w => is_word w = true) (legal_words query).
Proof.
  apply Forall_forall. intros w Hw. unfold legal_words in Hw.
  apply filter_In in Hw. destruct Hw as [Hin Hne].
  unfold is_word. rewrite Hne. simpl.
  exact (proj1 (Forall_forall _ _) (fields_legal query) w Hin).
Qed.

Lemma word_without (c : ascii) (w : string) :
  illegal c = true -> is_word w = true ->
  all_chars (fun a => negb (Ascii.eqb a c)) w = true.
Proof.
  intros Hc [_ Hw]%andb_true_iff. revert Hw. apply all_chars_weaken.
  intros a Ha. apply negb_true_iff, Ascii.eqb_neq. intros ->.
  now rewrite Hc in Ha.
Qed.

Lemma search_terms_words (query : string) :
  search_terms query = legal_words query.
Proof.
  unfold search_terms. rewrite cleaned_words.
  pose proof (legal_words_are_words query) as Hwords.
  destruct (legal_words query) as [|w ws]; [reflexivity|].
  rewrite join_not_empty.
  - apply split_join. revert Hwords. apply Forall_impl.
    intros p. now apply word_without.
  - inversion Hwords as [|? ? Hw _]; subst.
    apply andb_true_iff in Hw. now apply negb_true_iff.
Qed.

Lemma safe_search_terms_terms (query wildcard : string) :
  safe_search_terms query wildcard
  = map (fun a => a ++ wildcard) (search_terms query).
Proof.
  unfold safe_search_terms, search_terms, cleaned.
  now destruct (is_empty _).
Qed.

Lemma safe_search_terms_words (query wildcard : string) :
  safe_search_terms query wildcard
  = map (fun a => a ++ wildcard) (legal_words query).
Proof. now rewrite safe_search_terms_terms, search_terms_words. Qed.

Lemma safe_search_terms_nil (query wildcard : string) :
  safe_search_terms query wildcard = [] <-> legal_words query = [].
Proof.
  rewrite safe_search_terms_words.
  destruct (legal_words query); simpl; split; congruence.
Qed.

End Sanitiser.

Section SanitiserClaims.

Lemma only_illegal_no_words (query : string) :
  all_chars illegal query = true -> legal_words query = [].
Proof.
  unfold legal_words. induction query as [|c rest IH]; [reflexivity|].
  cbn [all_chars fields]. intros [Hc Hrest]%andb_true_iff.
  rewrite Hc. exact (IH Hrest).
Qed.

Lemma cleaned_empty_no_words (query : string) :
  cleaned query = "" -> legal_words query = [].
Proof.
  rewrite cleaned_words. intros Hjoin.
  pose proof (legal_words_not_empty query) as Hne.
  destruct (legal_words query) as [|w ws]; [reflexivity|].
  inversion Hne as [|? ? Hw _]; subst.
  apply (join_not_empty " " w ws) in Hw. now rewrite Hjoin in Hw.
Qed.

Lemma token_without_space (w : string) :
  is_word w = true ->
  all_chars (fun a => negb (Ascii.eqb a " ")) (w ++ default_wildcard) = true.
Proof.
  intros Hw. rewrite all_chars_app, (word_without " " w eq_refl Hw).
  reflexivity.
Qed.

(** Re-splitting the joined tokens gives the tokens back, and without
    their marker the terms, as soon as there is a token. *)
Lemma resplit_tokens (w : string) (ws : list string) :
  Forall (fun w => is_word w = true) (w :: ws) ->
  let tokens := map (fun a => a ++ default_wildcard) (w :: ws) in
  split " & " (join " & " tokens) = tokens
  /\ Spec.resplit (join " & " tokens) = w :: ws.
Proof.
  intros Hwords tokens.
  assert (Hsplit : split " & " (join " & " tokens) = tokens).
  { apply (split_join " " "& "). subst tokens.
    change (Forall (fun p => all_chars (fun a => negb (Ascii.eqb a " ")) p
                             = true)
              (map (fun a => a ++ default_wildcard) (w :: ws))).
    apply Forall_map. revert Hwords. apply Forall_impl.
    exact token_without_space. }
  split; [exact Hsplit|].
  unfold Spec.resplit. rewrite Hsplit. subst tokens.
  rewrite map_map. rewrite <- (map_id (w :: ws)) at 2.
  apply map_ext. intros a. apply removesuffix_app.
Qed.

(** C1, as the code has it: every maximal run of reserved characters and
    whitespace is replaced by one space and the ends are trimmed, so the
    cleaned query is the words of the input (its maximal runs of other
    characters) with one space between two of them, and the result is one
    token per word; the result is the empty sequence when the cleaned
    query is empty, in particular for every string of reserved characters
    and whitespace only. *)
Theorem C1_runs_replaced_by_one_space (query wildcard : string) :
  cleaned query = join " " (legal_words query)
  /\ safe_search_terms query wildcard
     = map (fun a => a ++ wildcard) (legal_words query)
  /\ (cleaned query = "" -> safe_search_terms query wildcard = [])
  /\ (all_chars illegal query = true ->
      safe_search_terms query wildcard = []).
Proof.
  split; [apply cleaned_words|].
  split; [apply safe_search_terms_words|].
  split; intros H; apply safe_search_terms_nil.
  - now apply cleaned_empty_no_words.
  - now apply only_illegal_no_words.
Qed.

Lemma C1_runs_replaced_by_one_space_witness :
  all_chars illegal "(:) |&!*@# " = true
  /\ safe_search_terms "(:) |&!*@# " default_wildcard = [].
Proof.
  split; [reflexivity|].
  apply (proj2 (proj2 (proj2
           (C1_runs_replaced_by_one_space "(:) |&!*@# " default_wildcard)))).
  reflexivity.
Defined.

(** C1 as stated fails: on [a:b] the specification's sanitiser deletes the
    colon and returns the single token [ab:*], the code returns [a:*] and
    [b:*]. *)
Lemma C1_counterexample :
  Spec.sanitize "a:b" = ["ab:*"]
  /\ safe_search_terms "a:b" default_wildcard = ["a:*"; "b:*"]
  /\ safe_search_terms "a:b" default_wildcard <> Spec.sanitize "a:b".
Proof. repeat split. discriminate. Qed.

(** C5, for a term set that is not empty: joining the tokens with [" & "]
    and splitting on [" & "] gives the tokens back, and without their
    suffix marker the terms the sanitiser split the query into, in the same
    order. *)
Theorem C5_join_resplit_roundtrip (query : string) :
  safe_search_terms query default_wildcard <> [] ->
  let tokens := safe_search_terms query default_wildcard in
  split " & " (join " & " tokens) = tokens
  /\ Spec.resplit (join " & " tokens) = search_terms query.
Proof.
  intros Hne tokens. subst tokens.
  rewrite search_terms_words. rewrite safe_search_terms_words in *.
  pose proof (legal_words_are_words query) as Hwords.
  destruct (legal_words query) as [|w ws]; [contradiction|].
  exact (resplit_tokens w ws Hwords).
Qed.

Lemma C5_join_resplit_roundtrip_witness :
  Spec.resplit (join " & " (safe_search_terms "hello (world)" default_wildcard))
  = search_terms "hello (world)".
Proof.
  apply (C5_join_resplit_roundtrip "hello (world)"). discriminate.
Defined.

(** C5 as stated fails on the empty query: the term set is empty, its join
    is the empty string, and splitting the empty string gives one empty
    piece. *)
Lemma C5_counterexample :
  safe_search_terms "" default_wildcard = []
  /\ Spec.resplit (join " & " (safe_search_terms "" default_wildcard)) = [""]
  /\ Spec.resplit (join " & " (safe_search_terms "" default_wildcard))
     <> search_terms "".
Proof. repeat split. discriminate. Qed.

(** C6: every token of the term set is a word followed by the marker; the
    word is not empty and holds no reserved character and no whitespace. *)
Theorem C6_tokens_are_marked_words (query : string) :
  Forall (fun token =>
            exists w, token = w ++ ":*"
                      /\ w <> ""
                      /\ all_chars (fun c => negb (reserved c || isspace c)) w
                         = true)
    (safe_search_terms query default_wildcard).
Proof.
  rewrite safe_search_terms_words. apply Forall_map.
  generalize (legal_words_are_words query). apply Forall_impl.
  intros w [Hne Hlegal]%andb_true_iff. exists w.
  split; [reflexivity|]. split; [|exact Hlegal].
  intros ->. discriminate.
Qed.

End SanitiserClaims.

(** ** Classes and table-name inspection *)

Section Classes.

(** Induction along the first base of a class, the path
    [_inspect_searchable_tablename] follows. *)
Lemma pyclass_first_base_ind (P : pyclass -> Prop) :
  P object_class ->
  P SearchableClass ->
  (forall a, P (Class [] a)) ->
  (forall class_ bases a, P class_ -> P (Class (class_ :: bases) a)) ->
  forall cls, P cls.
Proof.
  intros Hobject HSearchable Hnone Hfirst.
  fix IH 1. intros [| |[|class_ bases] a].
  - exact Hobject.
  - exact HSearchable.
  - apply Hnone.
  - apply Hfirst, IH.
Qed.

Lemma inspect_unfold (cls : pyclass) :
  Searchable._inspect_searchable_tablename cls
  = if negb (issubclass_Searchable cls) then Raise AttributeError
    else
      match cls with
      | object_class => Raise AttributeError
      | SearchableClass => Raise AttributeError
      | Class bases a =>
          if existsb is_Searchable bases then
            tablename <- getattr (__tablename__ a) ;;
            Ok (Some tablename)
          else
            match bases with
            | [] => Ok None
            | class_ :: _ => Searchable._inspect_searchable_tablename class_
            end
      end.
Proof. destruct cls; reflexivity. Qed.

(** The inspection ends with a table name or with [AttributeError]; it
    never falls through to [None]. *)
Lemma inspect_name_or_raise (cls : pyclass) :
  Searchable._inspect_searchable_tablename cls = Raise AttributeError
  \/ exists name,
       Searchable._inspect_searchable_tablename cls = Ok (Some name).
Proof.
  induction cls as [| |a|class_ bases a IH] using pyclass_first_base_ind;
    rewrite inspect_unfold.
  - now left.
  - now left.
  - now left.
  - destruct (negb _); [now left|].
    destruct (existsb is_Searchable (class_ :: bases)); [|exact IH].
    destruct (__tablename__ a) as [name|]; [right; now exists name|now left].
Qed.

Lemma direct_base_issubclass (cls : pyclass) :
  Searchable_in_bases cls = true -> issubclass_Searchable cls = true.
Proof.
  destruct cls as [| |bases a]; [discriminate | reflexivity |].
  unfold Searchable_in_bases. cbn [__bases__ issubclass_Searchable].
  induction bases as [|b bases IH]; [discriminate|].
  cbn [existsb]. intros [Hb|Hrest]%orb_true_iff; apply orb_true_iff.
  - left. now destruct b.
  - right. exact (IH Hrest).
Qed.

(** [__search_args_init__] leaves the bases, the name and the searchable
    columns of the class as they are. *)
Lemma search_args_init_keeps (cls cls' : pyclass) :
  Searchable.__search_args_init__ cls = Ok cls' ->
  __bases__ cls' = __bases__ cls
  /\ __name__ (attrs_of cls') = __name__ (attrs_of cls)
  /\ __searchable_columns__ (attrs_of cls')
     = __searchable_columns__ (attrs_of cls).
Proof.
  destruct cls as [| |bases a]; [discriminate | discriminate |].
  unfold Searchable.__search_args_init__, bind, getattr.
  destruct (__search_trigger_name__ a), (__search_index_name__ a),
    (__tablename__ a); intros Heq; inversion Heq; subst; now repeat split.
Qed.

Lemma define_search_vector_no_columns (cls : pyclass)
  (registry : list listener) :
  Searchable_in_bases cls = true ->
  __searchable_columns__ (attrs_of cls) = [] ->
  Searchable.define_search_vector cls registry
  = Raise (Exception ("No searchable columns defined for model "
                      ++ __name__ (attrs_of cls))).
Proof.
  intros Hbase Hcolumns. unfold Searchable.define_search_vector.
  now rewrite Hbase, Hcolumns.
Qed.

End Classes.

(** ** The filter builder and [search] *)

Section Search.

Context {Q : Type} `{QueryContext Q}.

Lemma safe_search_terms_empty (wildcard : string) :
  safe_search_terms "" wildcard = [].
Proof. reflexivity. Qed.

Lemma resolve_given (query : Q) (tablename : pystr) :
  not_ tablename = false -> resolve_tablename query tablename = Ok tablename.
Proof. unfold resolve_tablename. now intros ->. Qed.

(** The inference of lines 51-59 ends with a table name or raises. *)
Lemma resolve_name_or_raise (query : Q) (tablename : pystr) :
  (exists e, resolve_tablename query tablename = Raise e)
  \/ exists name, resolve_tablename query tablename = Ok (Some name).
Proof.
  unfold resolve_tablename. destruct tablename as [name|]; cbn [not_].
  - destruct (is_empty name) eqn:Hname; [|right; now exists name].
    destruct (entity_zero_class query) as [entity|e];
      cbn [bind]; [|left; now exists e].
    destruct (__search_options__ (attrs_of entity)) as [options|].
    + destruct (dict_get options "tablename") as [n|];
        [right; now exists n|].
      destruct (inspect_name_or_raise entity) as [->| [n ->]];
        [left; now exists AttributeError | right; now exists n].
    + destruct (inspect_name_or_raise entity) as [->| [n ->]];
        [left; now exists AttributeError | right; now exists n].
  - destruct (entity_zero_class query) as [entity|e];
      cbn [bind]; [|left; now exists e].
    destruct (__search_options__ (attrs_of entity)) as [options|].
    + destruct (dict_get options "tablename") as [n|];
        [right; now exists n|].
      destruct (inspect_name_or_raise entity) as [->| [n ->]];
        [left; now exists AttributeError | right; now exists n].
    + destruct (inspect_name_or_raise entity) as [->| [n ->]];
        [left; now exists AttributeError | right; now exists n].
Qed.

Lemma search_filter_resolved (query : Q) (term : string)
  (tablename language table : pystr) :
  resolve_tablename query tablename = Ok table ->
  search_filter query term tablename language = Ok (predicate table language).
Proof.
  intros Hresolve. unfold search_filter, predicate. rewrite Hresolve.
  cbn [bind]. now destruct (not_ language).
Qed.

Lemma search_filter_unresolved (query : Q) (term : string)
  (tablename language : pystr) (e : pyexn) :
  resolve_tablename query tablename = Raise e ->
  search_filter query term tablename language = Raise e.
Proof. intros Hresolve. unfold search_filter. now rewrite Hresolve. Qed.

Lemma search_filter_term_unused (query : Q) (term term' : string)
  (tablename language : pystr) :
  search_filter query term tablename language
  = search_filter query term' tablename language.
Proof. reflexivity. Qed.

Lemma search_no_terms (query : Q) (search_query : string)
  (tablename language : pystr) :
  search_query = "" \/ safe_search_terms search_query default_wildcard = [] ->
  search query search_query tablename language = Ok query.
Proof.
  unfold search. intros [->| ->]; [reflexivity|].
  now destruct (is_empty search_query).
Qed.

Lemma mixin_search_no_terms (self : Q) (search_query : string)
  (tablename language : pystr) :
  search_query = "" \/ safe_search_terms search_query default_wildcard = [] ->
  SearchQueryMixin.search self search_query tablename language = Ok self.
Proof.
  unfold SearchQueryMixin.search. intros [->| ->]; [reflexivity|].
  now destruct (is_empty search_query).
Qed.

Lemma terms_query_not_empty (search_query wildcard : string) :
  safe_search_terms search_query wildcard <> [] ->
  is_empty search_query = false.
Proof. destruct search_query; [now intros [] | reflexivity]. Qed.

(** With terms, [search] builds the criterion, attaches it and binds
    [term]. *)
Lemma search_with_terms (query : Q) (search_query : string)
  (tablename language : pystr) :
  safe_search_terms search_query default_wildcard <> [] ->
  search query search_query tablename language
  = (criterion <- search_filter query search_query tablename language ;;
     Ok (query_params (query_filter query criterion) "term"
           (join " & " (safe_search_terms search_query default_wildcard)))).
Proof.
  intros Hterms. unfold search.
  rewrite (terms_query_not_empty _ _ Hterms).
  destruct (safe_search_terms search_query default_wildcard);
    [contradiction|].
  unfold SearchQueryMixin.search_filter.
  destruct (has_search_filter query);
    now destruct (search_filter query search_query tablename language).
Qed.

Lemma mixin_search_with_terms (self : Q) (search_query : string)
  (tablename language : pystr) :
  safe_search_terms search_query default_wildcard <> [] ->
  SearchQueryMixin.search self search_query tablename language
  = (criterion <- search_filter self search_query tablename language ;;
     term <- unicode_join " & "
               (safe_search_terms search_query default_wildcard) ;;
     Ok (query_params (query_filter self criterion) "term" term)).
Proof.
  intros Hterms. unfold SearchQueryMixin.search.
  rewrite (terms_query_not_empty _ _ Hterms).
  destruct (safe_search_terms search_query default_wildcard);
    [contradiction|].
  reflexivity.
Qed.

Lemma fields_all_chars (p : ascii -> bool) (query : string) :
  all_chars p query = true ->
  Forall (fun w => all_chars p w = true) (fields query).
Proof.
  induction query as [|c rest IH]; cbn [all_chars fields].
  - intros _. repeat constructor.
  - intros [Hc Hrest]%andb_true_iff. specialize (IH Hrest).
    destruct (illegal c); [now constructor|].
    destruct (fields rest) as [|w ws]; cbn [cons_head].
    + repeat constructor. simpl. now rewrite Hc.
    + inversion IH as [|? ? Hw Hws]; subst. constructor; [|exact Hws].
      simpl. now rewrite Hc, Hw.
Qed.

(** The tokens of an ASCII query are ASCII. *)
Lemma ascii_query_ascii_tokens (search_query : string) :
  all_chars is_ascii search_query = true ->
  forallb (all_chars is_ascii)
    (safe_search_terms search_query default_wildcard) = true.
Proof.
  intros Hascii. rewrite safe_search_terms_words.
  apply forallb_forall. intros token [w [<- Hw]]%in_map_iff.
  rewrite all_chars_app, andb_true_r.
  unfold legal_words in Hw. apply filter_In in Hw. destruct Hw as [Hw _].
  exact (proj1 (Forall_forall _ _)
           (fields_all_chars is_ascii search_query Hascii) w Hw).
Qed.

(** On ASCII tokens the two joins agree, and so do the two searches. *)
Lemma search_is_mixin_search (query : Q) (search_query : string)
  (tablename language : pystr) :
  forallb (all_chars is_ascii)
    (safe_search_terms search_query default_wildcard) = true ->
  search query search_query tablename language
  = SearchQueryMixin.search query search_query tablename language.
Proof.
  intros Hascii.
  destruct (safe_search_terms search_query default_wildcard) eqn:Hterms.
  - rewrite search_no_terms, mixin_search_no_terms; auto.
  - rewrite search_with_terms, mixin_search_with_terms;
      [| rewrite Hterms; discriminate | rewrite Hterms; discriminate].
    rewrite Hterms. unfold unicode_join. rewrite Hascii. reflexivity.
Qed.

(** A token with a byte above 127 makes the mixin's [search] raise
    [UnicodeDecodeError] where the table resolves, while the module-level
    [search] returns the filtered query. *)
Lemma mixin_search_non_ascii (query : Q) (search_query : string)
  (tablename language table : pystr) :
  forallb (all_chars is_ascii)
    (safe_search_terms search_query default_wildcard) = false ->
  resolve_tablename query tablename = Ok table ->
  SearchQueryMixin.search query search_query tablename language
  = Raise UnicodeDecodeError
  /\ search query search_query tablename language
     = Ok (query_params (query_filter query (predicate table language))
             "term"
             (join " & " (safe_search_terms search_query default_wildcard))).
Proof.
  intros Hbyte Hresolve.
  assert (Hterms : safe_search_terms search_query default_wildcard <> []).
  { intros Hnil. rewrite Hnil in Hbyte. discriminate. }
  rewrite mixin_search_with_terms, search_with_terms by exact Hterms.
  rewrite (search_filter_resolved query search_query tablename language
             table Hresolve).
  cbn [bind]. unfold unicode_join. rewrite Hbyte. split; reflexivity.
Qed.

End Search.

(** ** Claims on the filter builder and [search] *)

Section SearchClaims.

Context {Q : Type} `{QueryContext Q}.

(** C2: with the table identifier [users] and no search configuration,
    [search_filter] returns ["users".search_vector @@ to_tsquery(:term)];
    with the configuration [english] it returns
    ["users".search_vector @@ to_tsquery('english', :term)]; the identifier
    is quoted by a double quote on each side. *)
Theorem C2_search_filter_users (query : Q) (term : string) :
  search_filter query term (Some "users") None
  = Ok (dquote ++ "users" ++ dquote
        ++ ".search_vector @@ to_tsquery(:term)")
  /\ search_filter query term (Some "users") (Some "english")
     = Ok (dquote ++ "users" ++ dquote
           ++ ".search_vector @@ to_tsquery('english', :term)")
  /\ (forall identifier,
        quote_identifier (Some identifier) = dquote ++ identifier ++ dquote)
  /\ dquote = String (ascii_of_nat 34) "".
Proof. repeat split. Qed.

(** C3: on an empty raw query, or one whose term set is empty, [search]
    and the mixin's [search] return the query context they were given,
    itself: nothing is attached and nothing is bound. *)
Theorem C3_no_terms_returns_context (ctx : Q) (search_query : string)
  (tablename language : pystr) :
  search_query = ""
  \/ safe_search_terms search_query default_wildcard = [] ->
  search ctx search_query tablename language = Ok ctx
  /\ SearchQueryMixin.search ctx search_query tablename language = Ok ctx.
Proof.
  intros Hempty. split.
  - now apply search_no_terms.
  - now apply mixin_search_no_terms.
Qed.

(** C4, for a raw query that has terms and a table that is given or can be
    inferred: [search] attaches the predicate for that table and binds
    [term] to the tokens joined by [" & "]; a table that is given is the
    one referenced; for [hello world] the value bound is
    [hello:* & world:*]. *)
Theorem C4_filter_attached_and_term_bound (query : Q)
  (search_query : string) (tablename language table : pystr) :
  safe_search_terms search_query default_wildcard <> [] ->
  resolve_tablename query tablename = Ok table ->
  search query search_query tablename language
  = Ok (query_params
          (query_filter query
             (if not_ language then
                quote_identifier table
                ++ ".search_vector @@ to_tsquery(:term)"
              else
                quote_identifier table
                ++ ".search_vector @@ to_tsquery('"
                ++ percent_s language ++ "', :term)"))
          "term"
          (join " & " (safe_search_terms search_query default_wildcard)))
  /\ (not_ tablename = false -> table = tablename)
  /\ join " & " (safe_search_terms "hello world" default_wildcard)
     = "hello:* & world:*".
Proof.
  intros Hterms Hresolve. split; [|split; [|reflexivity]].
  - rewrite (search_with_terms query search_query tablename language Hterms).
    now rewrite (search_filter_resolved query search_query
                   tablename language table Hresolve).
  - intros Hgiven. rewrite (resolve_given query tablename Hgiven) in Hresolve.
    congruence.
Qed.

(** C7: the predicate does not depend on the raw search term: for two
    terms, the same table and the same language, [search_filter] returns
    the same string; [search] attaches the predicate built for any other
    term, and the tokens of its own raw query reach the query only as the
    value bound to [term]. *)
Theorem C7_predicate_independent_of_term (query : Q) (term1 term2 : string)
  (tablename language : pystr) :
  search_filter query term1 tablename language
  = search_filter query term2 tablename language
  /\ (safe_search_terms term1 default_wildcard <> [] ->
      search query term1 tablename language
      = (criterion <- search_filter query term2 tablename language ;;
         Ok (query_params (query_filter query criterion) "term"
               (join " & " (safe_search_terms term1 default_wildcard))))).
Proof.
  split; [apply search_filter_term_unused|].
  intros Hterms. rewrite (search_with_terms _ _ _ _ Hterms).
  now rewrite (search_filter_term_unused query term1 term2).
Qed.

(** C9: a query without terms comes back unchanged; with terms, a table
    name that cannot be determined makes [search] raise the exception of
    the inference, which is not the unchanged query; [search_filter] raises
    it whatever the term; and the inference never ends without a name and
    without an exception. *)
Theorem C9_inference_failure_raises (query : Q) (search_query : string)
  (tablename language : pystr) (e : pyexn) :
  (safe_search_terms search_query default_wildcard = [] ->
   search query search_query tablename language = Ok query)
  /\ (safe_search_terms search_query default_wildcard <> [] ->
      resolve_tablename query tablename = Raise e ->
      search query search_query tablename language = Raise e
      /\ search query search_query tablename language <> Ok query)
  /\ (resolve_tablename query tablename = Raise e ->
      search_filter query search_query tablename language = Raise e)
  /\ resolve_tablename query tablename <> Ok None.
Proof.
  split; [|split; [|split]].
  - intros Hnone. apply search_no_terms. now right.
  - intros Hterms Hresolve.
    assert (Hraise : search query search_query tablename language = Raise e).
    { rewrite (search_with_terms _ _ _ _ Hterms).
      now rewrite (search_filter_unresolved _ _ _ _ _ Hresolve). }
    split; [exact Hraise|]. rewrite Hraise. discriminate.
  - apply search_filter_unresolved.
  - destruct (resolve_name_or_raise query tablename) as [[e' ->]|[name ->]];
      discriminate.
Qed.

End SearchClaims.

Section SearchWitnesses.

Import Sample.

Lemma C3_no_terms_returns_context_witness :
  search (query_of Article true) "(@) !" None None
  = Ok (query_of Article true).
Proof.
  apply (C3_no_terms_returns_context (query_of Article true) "(@) !").
  right. reflexivity.
Defined.

Lemma C4_filter_attached_and_term_bound_witness :
  search (query_of Article false) "hello world" None None
  = Ok {| _entities := [Article];
          criteria := [dquote ++ "article" ++ dquote
                       ++ ".search_vector @@ to_tsquery(:term)"];
          bound := [("term", "hello:* & world:*")];
          mixes_in_SearchQueryMixin := false |}.
Proof.
  rewrite (proj1 (C4_filter_attached_and_term_bound
                    (query_of Article false) "hello world" None None
                    (Some "article") ltac:(discriminate) eq_refl)).
  reflexivity.
Defined.

(** C4 as stated fails on the raw query [@], which is not empty and has no
    terms: [search] returns the query it was given, and no criterion and no
    parameter is attached to it. *)
Lemma C4_counterexample :
  "@" <> ""
  /\ search (query_of Article false) "@" (Some "article") None
     = Ok (query_of Article false)
  /\ forall criterion value,
       search (query_of Article false) "@" (Some "article") None
       <> Ok (query_params
                (query_filter (query_of Article false) criterion)
                "term" value).
Proof.
  split; [discriminate|]. split; [reflexivity|].
  intros criterion value. discriminate.
Qed.

Lemma C7_predicate_independent_of_term_witness :
  search (query_of Article false) "drop (table)" None (Some "english")
  = Ok {| _entities := [Article];
          criteria := [dquote ++ "article" ++ dquote
                       ++ ".search_vector @@ to_tsquery('english', :term)"];
          bound := [("term", "drop:* & table:*")];
          mixes_in_SearchQueryMixin := false |}.
Proof.
  rewrite (proj2 (C7_predicate_independent_of_term
                    (query_of Article false) "drop (table)" "other"
                    None (Some "english"))).
  - reflexivity.
  - discriminate.
Defined.

Lemma C9_inference_failure_raises_witness :
  search (query_of User false) "hello" None None = Raise AttributeError
  /\ search (query_of User false) "hello" None None
     <> Ok (query_of User false).
Proof.
  apply (C9_inference_failure_raises (query_of User false) "hello"
           None None AttributeError).
  - discriminate.
  - reflexivity.
Defined.

(** C10 fails on the code: on a query object that provides the mixin and a
    raw query with a byte above 127, here [caf] followed by the bytes 195
    and 169, the mixin's [search] raises [UnicodeDecodeError] in
    [u' & '.join(terms)] (line 45), while the module-level [search], which
    joins with [' & '] (line 94), returns the query with the predicate
    attached and [term] bound; on ASCII tokens the two agree. *)
Theorem C10_mixin_search_raises_on_non_ascii :
  let raw := "caf" ++ String (ascii_of_nat 195)
                        (String (ascii_of_nat 169) "") in
  has_search_filter (query_of Article true) = true
  /\ SearchQueryMixin.search (query_of Article true) raw None None
     = Raise UnicodeDecodeError
  /\ search (query_of Article true) raw None None
     = Ok {| _entities := [Article];
             criteria := [dquote ++ "article" ++ dquote
                          ++ ".search_vector @@ to_tsquery(:term)"];
             bound := [("term", raw ++ ":*")];
             mixes_in_SearchQueryMixin := true |}
  /\ search (query_of Article true) "cafe" None None
     = SearchQueryMixin.search (query_of Article true) "cafe" None None.
Proof. repeat split. Qed.

End SearchWitnesses.

(** ** Claims on schema definition *)

Section SchemaClaims.

(** C8: for a class that inherits [Searchable] directly and has no
    searchable columns, [define_search_vector] raises the exception
    [No searchable columns defined for model <name>]; the listener run at
    class instrumentation does not handle it: it raises as well, that
    exception or the one [__search_args_init__] raised before it. *)
Theorem C8_no_columns_raises (cls : pyclass) (registry : list listener) :
  Searchable_in_bases cls = true ->
  __searchable_columns__ (attrs_of cls) = [] ->
  Searchable.define_search_vector cls registry
  = Raise (Exception ("No searchable columns defined for model "
                      ++ __name__ (attrs_of cls)))
  /\ attach_search_indexes cls registry
     = match Searchable.__search_args_init__ cls with
       | Ok _ =>
           Raise (Exception ("No searchable columns defined for model "
                             ++ __name__ (attrs_of cls)))
       | Raise e => Raise e
       end
  /\ raises (attach_search_indexes cls registry) = true.
Proof.
  intros Hbase Hcolumns.
  assert (Hattach :
    attach_search_indexes cls registry
    = match Searchable.__search_args_init__ cls with
      | Ok _ =>
          Raise (Exception ("No searchable columns defined for model "
                            ++ __name__ (attrs_of cls)))
      | Raise e => Raise e
      end).
  { unfold attach_search_indexes.
    rewrite (direct_base_issubclass cls Hbase).
    destruct (Searchable.__search_args_init__ cls) as [cls'|e] eqn:Hinit;
      [|reflexivity].
    cbn [bind].
    destruct (search_args_init_keeps cls cls' Hinit)
      as (Hbases & Hname & Hcols).
    rewrite define_search_vector_no_columns.
    - cbn [bind]. now rewrite Hname.
    - unfold Searchable_in_bases in *. now rewrite Hbases.
    - now rewrite Hcols. }
  split; [now apply define_search_vector_no_columns|].
  split; [exact Hattach|].
  rewrite Hattach. now destruct (Searchable.__search_args_init__ cls).
Qed.

Lemma C8_no_columns_raises_witness :
  Searchable.define_search_vector Sample.Draft []
  = Raise (Exception "No searchable columns defined for model Draft")
  /\ attach_search_indexes Sample.Draft []
     = Raise (Exception "No searchable columns defined for model Draft").
Proof.
  destruct (C8_no_columns_raises Sample.Draft [] eq_refl eq_refl)
    as (Hdefine & Hattach & _).
  split; [exact Hdefine | exact Hattach].
Defined.

End SchemaClaims.

(** ** The module at work *)

Section Examples.

Import Sample.

Example safe_search_terms_punctuation :
  safe_search_terms "  hello (world)!! " default_wildcard
  = ["hello:*"; "world:*"].
Proof. reflexivity. Qed.

Example safe_search_terms_tabs_and_newlines :
  safe_search_terms
    ("star" ++ String (ascii_of_nat 9) "" ++ "wars" ++ nl ++ "@" ++ "iv")
    default_wildcard
  = ["star:*"; "wars:*"; "iv:*"].
Proof. reflexivity. Qed.

Example safe_search_terms_other_wildcard :
  safe_search_terms "a|b" "" = ["a"; "b"].
Proof. reflexivity. Qed.

Example split_empty_string : split " & " "" = [""].
Proof. reflexivity. Qed.

Example split_on_and :
  split " & " "a:* & b:* & c:*" = ["a:*"; "b:*"; "c:*"].
Proof. reflexivity. Qed.

Example split_adjacent_spaces : split " " "a  b" = ["a"; ""; "b"].
Proof. reflexivity. Qed.

Example removesuffix_absent : removesuffix ":*" "a:*b" = "a:*b".
Proof. reflexivity. Qed.

(** Joined table inheritance: the table of the searchable parent. *)
Example inspect_child_of_article :
  Searchable._inspect_searchable_tablename
    (Class [Article] (model "Review" (Some "review") []))
  = Ok (Some "article").
Proof. reflexivity. Qed.

Example inspect_not_searchable :
  Searchable._inspect_searchable_tablename User = Raise AttributeError.
Proof. reflexivity. Qed.

Example search_options_tablename :
  search_filter
    (query_of (Class [Base]
                 {| __name__ := "Page";
                    __tablename__ := Some "page";
                    __table__ := Some "page";
                    __search_options__ := Some [("tablename", "content")];
                    __searchable_columns__ := [];
                    __search_vector_name__ := "search_vector";
                    __search_catalog__ := "pg_catalog.english";
                    __search_trigger_name__ := None;
                    __search_index_name__ := None |}) false)
    "anything" None None
  = Ok (dquote ++ "content" ++ dquote
        ++ ".search_vector @@ to_tsquery(:term)").
Proof. reflexivity. Qed.

Example search_without_entities :
  search {| _entities := []; criteria := []; bound := [];
            mixes_in_SearchQueryMixin := false |} "hello" None None
  = Raise IndexError.
Proof. reflexivity. Qed.

Example attach_article_registers_four_listeners :
  match attach_search_indexes Article [] with
  | Ok (cls, registry) =>
      __search_trigger_name__ (attrs_of cls) = Some "article_search_update"
      /\ __search_index_name__ (attrs_of cls) = Some "article_search_index"
      /\ map target registry = ["article"; "article"; "article"; "article"]
      /\ map (fun l => execute_if_dialect (fn l)) registry
         = ["postgresql"; "postgresql"; "postgresql"; "mysql"]
  | Raise _ => False
  end.
Proof. cbv. repeat split. Qed.

Example define_search_vector_not_direct :
  Searchable.define_search_vector
    (Class [Article] (model "Review" (Some "review") [])) []
  = Ok [].
Proof. reflexivity. Qed.

End Examples.

(** * Further properties of the module *)

(** ** What the sanitiser keeps and how it composes *)

Section SanitiserFurther.

Lemma join_empty_cons (w : string) (ws : list string) :
  join "" (w :: ws) = w ++ join "" ws.
Proof.
  destruct ws as [|w' ws]; [simpl; now rewrite append_empty_r|reflexivity].
Qed.

Lemma join_empty_fields (query : string) :
  join "" (fields query) = keep_legal query.
Proof.
  induction query as [|c rest IH]; [reflexivity|].
  cbn [fields keep_legal]. destruct (illegal c).
  - now rewrite join_empty_cons.
  - destruct (fields rest) as [|w ws] eqn:Hf;
      [now apply fields_nonempty in Hf|].
    cbn [cons_head]. now rewrite join_cons_head, IH.
Qed.

Lemma join_empty_filter (pieces : list string) :
  join "" (List.filter (fun w => negb (is_empty w)) pieces)
  = join "" pieces.
Proof.
  induction pieces as [|w ws IH]; [reflexivity|].
  cbn [List.filter]. destruct w as [|a w]; cbn [is_empty negb].
  - now rewrite join_empty_cons.
  - now rewrite !join_empty_cons, IH.
Qed.

Lemma join_empty_words (query : string) :
  join "" (legal_words query) = keep_legal query.
Proof.
  unfold legal_words. now rewrite join_empty_filter, join_empty_fields.
Qed.

Lemma keep_legal_empty (query : string) :
  keep_legal query = "" -> all_chars illegal query = true.
Proof.
  induction query as [|c rest IH]; [reflexivity|].
  cbn [keep_legal all_chars]. destruct (illegal c); [exact IH|discriminate].
Qed.

Lemma fields_app (a b : string) (c : ascii) :
  illegal c = true ->
  fields (a ++ String c b) = List.app (fields a) (fields b).
Proof.
  intros Hc. induction a as [|x a IH]; cbn [append fields].
  - now rewrite Hc.
  - rewrite IH. destruct (illegal x); [reflexivity|].
    destruct (fields a) as [|w ws] eqn:Hf;
      [now apply fields_nonempty in Hf | reflexivity].
Qed.

Lemma legal_words_app_illegal (i b : string) :
  all_chars illegal i = true -> legal_words (i ++ b) = legal_words b.
Proof.
  unfold legal_words. induction i as [|c i IH]; [reflexivity|].
  cbn [all_chars append fields]. intros [Hc Hi]%andb_true_iff.
  rewrite Hc. exact (IH Hi).
Qed.

(** A separator of class characters splits the words of a query. *)
Lemma legal_words_app (a sep b : string) :
  sep <> "" -> all_chars illegal sep = true ->
  legal_words (a ++ sep ++ b)
  = List.app (legal_words a) (legal_words b).
Proof.
  destruct sep as [|c sep]; [contradiction|]. intros _.
  cbn [all_chars append]. intros [Hc Hsep]%andb_true_iff.
  unfold legal_words at 1 2. rewrite (fields_app a (sep ++ b) c Hc).
  rewrite filter_app. f_equal. exact (legal_words_app_illegal sep b Hsep).
Qed.

Lemma fields_word (w : string) :
  all_chars (fun c => negb (illegal c)) w = true -> fields w = [w].
Proof.
  induction w as [|c w IH]; [reflexivity|].
  cbn [all_chars fields]. intros [Hc Hw]%andb_true_iff.
  apply negb_true_iff in Hc. now rewrite Hc, (IH Hw).
Qed.

Lemma legal_words_word (w : string) :
  is_word w = true -> legal_words w = [w].
Proof.
  intros [Hne Hlegal]%andb_true_iff. unfold legal_words.
  rewrite (fields_word w Hlegal). cbn [List.filter]. now rewrite Hne.
Qed.

(** A word followed by class characters only. *)
Lemma legal_words_token (w wildcard : string) :
  is_word w = true -> all_chars illegal wildcard = true ->
  legal_words (w ++ wildcard) = [w].
Proof.
  intros Hw Hwild. destruct wildcard as [|c wildcard].
  - rewrite append_empty_r. now apply legal_words_word.
  - rewrite <- (append_empty_r (String c wildcard)).
    rewrite legal_words_app; [|discriminate|exact Hwild].
    now rewrite (legal_words_word w Hw).
Qed.

Lemma legal_words_join (sep : string) (pieces : list string) :
  sep <> "" -> all_chars illegal sep = true ->
  legal_words (join sep pieces) = flat_map legal_words pieces.
Proof.
  intros Hne Hsep. induction pieces as [|p ps IH]; [reflexivity|].
  destruct ps as [|p' ps].
  - simpl. now rewrite app_nil_r.
  - rewrite join_cons_cons, legal_words_app by assumption.
    now rewrite IH.
Qed.

Lemma flat_map_tokens (wildcard : string) (ws : list string) :
  all_chars illegal wildcard = true ->
  Forall (fun w => is_word w = true) ws ->
  flat_map legal_words (map (fun a => a ++ wildcard) ws) = ws.
Proof.
  intros Hwild. induction 1 as [|w ws Hw _ IH]; [reflexivity|].
  cbn [map flat_map]. now rewrite (legal_words_token w wildcard Hw Hwild), IH.
Qed.

(** X1: no character outside the class is lost, added or moved: the terms,
    put end to end, are the characters of the query outside the class, in
    their order. *)
Theorem X1_terms_keep_legal_characters (query : string) :
  join "" (search_terms query) = keep_legal query
  /\ safe_search_terms query "" = search_terms query.
Proof.
  rewrite safe_search_terms_words, search_terms_words. split.
  - apply join_empty_words.
  - rewrite <- (map_id (legal_words query)) at 2.
    apply map_ext. intros a. apply append_empty_r.
Qed.

(** X2: the result is empty exactly when every character of the query
    belongs to the class. *)
Theorem X2_no_terms_iff_only_illegal (query wildcard : string) :
  safe_search_terms query wildcard = []
  <-> all_chars illegal query = true.
Proof.
  rewrite safe_search_terms_nil. split.
  - intros Hnone. apply keep_legal_empty.
    now rewrite <- join_empty_words, Hnone.
  - apply only_illegal_no_words.
Qed.

(** X3: the terms of two queries put together with a non-empty run of
    class characters between them are the terms of the first followed by
    the terms of the second. *)
Theorem X3_terms_of_concatenation (a sep b wildcard : string) :
  sep <> "" -> all_chars illegal sep = true ->
  safe_search_terms (a ++ sep ++ b) wildcard
  = List.app (safe_search_terms a wildcard) (safe_search_terms b wildcard).
Proof.
  intros Hne Hsep. rewrite !safe_search_terms_words.
  now rewrite (legal_words_app a sep b Hne Hsep), map_app.
Qed.

Lemma X3_terms_of_concatenation_witness :
  safe_search_terms ("foo" ++ " | " ++ "bar baz") default_wildcard
  = List.app (safe_search_terms "foo" default_wildcard)
      (safe_search_terms "bar baz" default_wildcard).
Proof.
  apply (X3_terms_of_concatenation "foo" " | " "bar baz" default_wildcard).
  - discriminate.
  - reflexivity.
Defined.

(** X4: words joined by any non-empty run of class characters come back
    one token per word, in order. *)
Theorem X4_words_come_back (sep wildcard : string) (ws : list string) :
  sep <> "" -> all_chars illegal sep = true ->
  Forall (fun w => is_word w = true) ws ->
  safe_search_terms (join sep ws) wildcard
  = map (fun a => a ++ wildcard) ws.
Proof.
  intros Hne Hsep Hwords.
  rewrite safe_search_terms_words, (legal_words_join sep ws Hne Hsep).
  f_equal. rewrite <- (flat_map_tokens "" ws eq_refl Hwords) at 2.
  f_equal. rewrite <- (map_id ws) at 1. apply map_ext.
  intros a. now rewrite append_empty_r.
Qed.

Lemma X4_words_come_back_witness :
  safe_search_terms (join " " ["full"; "text"; "search"]) default_wildcard
  = ["full:*"; "text:*"; "search:*"].
Proof.
  apply (X4_words_come_back " " default_wildcard ["full"; "text"; "search"]).
  - discriminate.
  - reflexivity.
  - repeat constructor.
Defined.

(** X5: sanitising is idempotent on its own output: when the wildcard is
    made of class characters, as the default [:*] is, the tokens joined by
    a non-empty run of class characters, [" & "] or [" "], sanitise to the
    same tokens. *)
Theorem X5_sanitise_own_output (query sep wildcard : string) :
  sep <> "" -> all_chars illegal sep = true ->
  all_chars illegal wildcard = true ->
  safe_search_terms (join sep (safe_search_terms query wildcard)) wildcard
  = safe_search_terms query wildcard.
Proof.
  intros Hne Hsep Hwild.
  rewrite (safe_search_terms_words (join _ _)).
  rewrite (legal_words_join sep _ Hne Hsep), safe_search_terms_words.
  now rewrite (flat_map_tokens wildcard _ Hwild (legal_words_are_words query)).
Qed.

Lemma X5_sanitise_own_output_witness :
  safe_search_terms
    (join " & " (safe_search_terms "hello (world)" default_wildcard))
    default_wildcard
  = safe_search_terms "hello (world)" default_wildcard.
Proof.
  apply (X5_sanitise_own_output "hello (world)" " & " default_wildcard).
  - discriminate.
  - reflexivity.
  - reflexivity.
Defined.

End SanitiserFurther.

(** ** The table the predicate is built for *)

Section TableFurther.

Lemma first_base_issubclass (class_ : pyclass) (bases : list pyclass)
  (a : class_attrs) :
  issubclass_Searchable (Class (class_ :: bases) a) = false ->
  issubclass_Searchable class_ = false.
Proof. cbn [issubclass_Searchable]. now intros [Hfirst _]%orb_false_iff. Qed.

Lemma root_issubclass (cls : pyclass) (a : class_attrs) :
  searchable_root cls = Some a -> issubclass_Searchable cls = true.
Proof.
  induction cls as [| |a'|class_ bases a' IH] using pyclass_first_base_ind;
    try discriminate.
  cbn [searchable_root].
  destruct (existsb is_Searchable (class_ :: bases)) eqn:Hdirect.
  - intros _. now apply direct_base_issubclass.
  - intros Hroot. cbn [issubclass_Searchable]. now rewrite (IH Hroot).
Qed.

(** The inspection returns the table name of the searchable root and
    raises [AttributeError] when there is no root or the root has no table
    name. *)
Lemma inspect_root (cls : pyclass) :
  Searchable._inspect_searchable_tablename cls
  = match searchable_root cls with
    | Some a => tablename <- getattr (__tablename__ a) ;; Ok (Some tablename)
    | None => Raise AttributeError
    end.
Proof.
  induction cls as [| |a|class_ bases a IH] using pyclass_first_base_ind;
    rewrite inspect_unfold; try reflexivity.
  cbn [searchable_root].
  destruct (existsb is_Searchable (class_ :: bases)) eqn:Hdirect.
  - rewrite (direct_base_issubclass (Class (class_ :: bases) a) Hdirect).
    reflexivity.
  - destruct (issubclass_Searchable (Class (class_ :: bases) a)) eqn:Hsub;
      cbn [negb]; [exact IH|].
    apply first_base_issubclass in Hsub.
    destruct (searchable_root class_) as [a'|] eqn:Hroot; [|reflexivity].
    apply root_issubclass in Hroot. congruence.
Qed.

Context {Q : Type} `{QueryContext Q}.

Lemma search_filter_given (query : Q) (term : string)
  (tablename language : pystr) :
  not_ tablename = false ->
  search_filter query term tablename language
  = Ok (predicate tablename language).
Proof.
  intros Hgiven. apply search_filter_resolved. now apply resolve_given.
Qed.

(** X6: with a table name that is given and not empty, [search_filter]
    does not look at the query or at the term and does not raise: it
    returns the predicate for that name, and [search] returns a query for
    every raw search string. *)
Theorem X6_given_table_never_raises (query : Q) (term raw : string)
  (tablename language : pystr) :
  not_ tablename = false ->
  search_filter query term tablename language
  = Ok (predicate tablename language)
  /\ raises (search query raw tablename language) = false.
Proof.
  intros Hgiven. split; [now apply search_filter_given|].
  destruct (safe_search_terms raw default_wildcard) eqn:Hterms.
  - rewrite search_no_terms; [reflexivity | now right].
  - rewrite search_with_terms by (rewrite Hterms; discriminate).
    now rewrite (search_filter_given query raw tablename language Hgiven).
Qed.

(** X7: an empty string for the table name or for the language is treated
    as a missing one: the table is inferred and the predicate names no
    configuration. *)
Theorem X7_empty_string_is_missing (query : Q) (term raw : string)
  (tablename language : pystr) :
  search_filter query term (Some "") language
  = search_filter query term None language
  /\ search_filter query term tablename (Some "")
     = search_filter query term tablename None
  /\ search query raw (Some "") (Some "") = search query raw None None.
Proof.
  split; [reflexivity|]. split; [reflexivity|].
  unfold search. destruct (is_empty raw); [reflexivity|].
  destruct (safe_search_terms raw default_wildcard); reflexivity.
Qed.

(** X8: when no table name is given, a [tablename] entry in the
    [__search_options__] of the query's entity decides the table, whatever
    the bases of the entity are; options without that entry count like no
    options at all, and the class hierarchy is inspected. *)
Theorem X8_search_options_decide (query : Q) (term : string)
  (language : pystr) (entity : pyclass) (options : list (string * string)) :
  entity_zero_class query = Ok entity ->
  __search_options__ (attrs_of entity) = Some options ->
  search_filter query term None language
  = match dict_get options "tablename" with
    | Some name => Ok (predicate (Some name) language)
    | None =>
        name <- Searchable._inspect_searchable_tablename entity ;;
        Ok (predicate name language)
    end.
Proof.
  intros Hentity Hoptions. unfold search_filter, resolve_tablename, predicate.
  cbn [not_]. rewrite Hentity. cbn [bind]. rewrite Hoptions.
  destruct (dict_get options "tablename") as [name|]; cbn [bind].
  - now destruct (not_ language).
  - destruct (Searchable._inspect_searchable_tablename entity);
      cbn [bind]; [now destruct (not_ language) | reflexivity].
Qed.

(** X9: without options on the entity, the table inferred is the table
    name of its searchable root: the first class with [Searchable] among
    its own bases on the path through first bases.  Without such a root,
    or when the root has no [__tablename__], [search_filter] raises
    [AttributeError]. *)
Theorem X9_inferred_table_is_root (query : Q) (term : string)
  (language : pystr) (entity : pyclass) :
  entity_zero_class query = Ok entity ->
  __search_options__ (attrs_of entity) = None ->
  search_filter query term None language
  = match searchable_root entity with
    | Some a =>
        match __tablename__ a with
        | Some name => Ok (predicate (Some name) language)
        | None => Raise AttributeError
        end
    | None => Raise AttributeError
    end.
Proof.
  intros Hentity Hoptions. unfold search_filter, resolve_tablename, predicate.
  cbn [not_]. rewrite Hentity. cbn [bind]. rewrite Hoptions, inspect_root.
  destruct (searchable_root entity) as [a|]; [|reflexivity].
  destruct (__tablename__ a); cbn [getattr bind]; [|reflexivity].
  now destruct (not_ language).
Qed.

End TableFurther.

Section InspectionFurther.

(** X10: a class without [Searchable] among its own bases is inspected
    through its first base only: the other bases do not matter, not even
    when one of them is searchable. *)
Theorem X10_only_first_base_inspected (class_ : pyclass)
  (bases : list pyclass) (a : class_attrs) :
  existsb is_Searchable (class_ :: bases) = false ->
  Searchable._inspect_searchable_tablename (Class (class_ :: bases) a)
  = Searchable._inspect_searchable_tablename class_.
Proof.
  intros Hdirect. rewrite !inspect_root. cbn [searchable_root].
  now rewrite Hdirect.
Qed.

Lemma X10_only_first_base_inspected_witness :
  Searchable._inspect_searchable_tablename
    (Class [Sample.Base; Sample.Article]
       (Sample.model "Review" (Some "review") []))
  = Raise AttributeError
  /\ Searchable._inspect_searchable_tablename
       (Class [Sample.Article; Sample.Base]
          (Sample.model "Review" (Some "review") []))
     = Ok (Some "article").
Proof.
  split.
  - rewrite (X10_only_first_base_inspected Sample.Base [Sample.Article]
               (Sample.model "Review" (Some "review") []) eq_refl).
    reflexivity.
  - rewrite (X10_only_first_base_inspected Sample.Article [Sample.Base]
               (Sample.model "Review" (Some "review") []) eq_refl).
    reflexivity.
Defined.

End InspectionFurther.

Section TableWitnesses.

Import Sample.

Lemma X6_given_table_never_raises_witness :
  search_filter (query_of User false) "anything" (Some "article") None
  = Ok (dquote ++ "article" ++ dquote
        ++ ".search_vector @@ to_tsquery(:term)").
Proof.
  apply (X6_given_table_never_raises (query_of User false) "anything"
           "anything" (Some "article") None).
  reflexivity.
Defined.

Lemma X8_search_options_decide_witness :
  search_filter
    (query_of (Class [Article]
                 {| __name__ := "Page";
                    __tablename__ := Some "page";
                    __table__ := Some "page";
                    __search_options__ := Some [("tablename", "content")];
                    __searchable_columns__ := [];
                    __search_vector_name__ := "search_vector";
                    __search_catalog__ := "pg_catalog.english";
                    __search_trigger_name__ := None;
                    __search_index_name__ := None |}) false)
    "anything" None None
  = Ok (dquote ++ "content" ++ dquote
        ++ ".search_vector @@ to_tsquery(:term)").
Proof.
  eapply eq_trans.
  - eapply X8_search_options_decide; reflexivity.
  - reflexivity.
Defined.

Lemma X9_inferred_table_is_root_witness :
  search_filter
    (query_of (Class [Article] (model "Review" (Some "review") [])) false)
    "anything" None (Some "english")
  = Ok (dquote ++ "article" ++ dquote
        ++ ".search_vector @@ to_tsquery('english', :term)").
Proof.
  eapply eq_trans.
  - eapply X9_inferred_table_is_root; reflexivity.
  - reflexivity.
Defined.

End TableWitnesses.

(** ** Schema definition *)

Section SchemaFurther.

Lemma direct_base_is_class (cls : pyclass) :
  Searchable_in_bases cls = true ->
  exists bases a, cls = Class bases a.
Proof.
  destruct cls as [| |bases a]; [discriminate | discriminate |].
  intros _. now exists bases, a.
Qed.

Lemma make_ddls_shape (cls : pyclass) (ddls : list DDL) :
  Searchable.__make_ddls cls = Ok ddls ->
  map execute_if_dialect ddls
  = ["postgresql"; "postgresql"; "postgresql"; "mysql"].
Proof.
  unfold Searchable.__make_ddls, bind, getattr.
  destruct (__tablename__ (attrs_of cls)); [|discriminate].
  destruct (__search_index_name__ (attrs_of cls)); [|discriminate].
  destruct (__search_trigger_name__ (attrs_of cls)); [|discriminate].
  intros Heq. inversion Heq. reflexivity.
Qed.

(** X11: [__search_args_init__] is idempotent and keeps the names a class
    declares: a trigger or index name that is present stays, one that is
    absent becomes the table name followed by [_search_update] or
    [_search_index]; on its own result the method changes nothing. *)
Theorem X11_search_args_init_idempotent (cls cls' : pyclass) :
  Searchable.__search_args_init__ cls = Ok cls' ->
  Searchable.__search_args_init__ cls' = Ok cls'
  /\ __search_trigger_name__ (attrs_of cls')
     = match __search_trigger_name__ (attrs_of cls) with
       | Some name => Some name
       | None =>
           option_map (fun t => t ++ "_search_update")
             (__tablename__ (attrs_of cls))
       end
  /\ __search_index_name__ (attrs_of cls')
     = match __search_index_name__ (attrs_of cls) with
       | Some name => Some name
       | None =>
           option_map (fun t => t ++ "_search_index")
             (__tablename__ (attrs_of cls))
       end
  /\ __tablename__ (attrs_of cls') = __tablename__ (attrs_of cls)
  /\ __table__ (attrs_of cls') = __table__ (attrs_of cls).
Proof.
  destruct cls as [| |bases a]; [discriminate | discriminate |].
  unfold Searchable.__search_args_init__ at 1. unfold bind, getattr.
  cbn [attrs_of].
  destruct (__search_trigger_name__ a), (__search_index_name__ a),
    (__tablename__ a); intros Heq; inversion Heq; subst;
    repeat split; reflexivity.
Qed.

Lemma X11_search_args_init_idempotent_witness :
  exists cls',
    Searchable.__search_args_init__ Sample.Article = Ok cls'
    /\ Searchable.__search_args_init__ cls' = Ok cls'
    /\ __search_trigger_name__ (attrs_of cls') = Some "article_search_update".
Proof.
  eexists. split; [reflexivity|].
  split;
    [apply (X11_search_args_init_idempotent Sample.Article _ eq_refl)
    |reflexivity].
Defined.

(** X12: [__search_args_init__] raises exactly when the class has no
    [__tablename__] and lacks a trigger name or an index name; what it
    raises is [AttributeError]. *)
Theorem X12_search_args_init_raises (bases : list pyclass) (a : class_attrs)
  (e : pyexn) :
  Searchable.__search_args_init__ (Class bases a) = Raise e
  <-> e = AttributeError
      /\ __tablename__ a = None
      /\ (__search_trigger_name__ a = None
          \/ __search_index_name__ a = None).
Proof.
  unfold Searchable.__search_args_init__, bind, getattr.
  destruct (__search_trigger_name__ a), (__search_index_name__ a),
    (__tablename__ a); split; intros Hyp;
    [ try discriminate Hyp; inversion Hyp; subst; repeat split; auto
    | destruct Hyp as (-> & Hname & [Hnone|Hnone]);
      try discriminate Hname; try discriminate Hnone; reflexivity
    | try discriminate Hyp; inversion Hyp; subst; repeat split; auto
    | destruct Hyp as (-> & Hname & [Hnone|Hnone]);
      try discriminate Hname; try discriminate Hnone; reflexivity
    | try discriminate Hyp; inversion Hyp; subst; repeat split; auto
    | destruct Hyp as (-> & Hname & [Hnone|Hnone]);
      try discriminate Hname; try discriminate Hnone; reflexivity
    | try discriminate Hyp; inversion Hyp; subst; repeat split; auto
    | destruct Hyp as (-> & Hname & [Hnone|Hnone]);
      try discriminate Hname; try discriminate Hnone; reflexivity
    | try discriminate Hyp; inversion Hyp; subst; repeat split; auto
    | destruct Hyp as (-> & Hname & [Hnone|Hnone]);
      try discriminate Hname; try discriminate Hnone; reflexivity
    | try discriminate Hyp; inversion Hyp; subst; repeat split; auto
    | destruct Hyp as (-> & Hname & [Hnone|Hnone]);
      try discriminate Hname; try discriminate Hnone; reflexivity
    | try discriminate Hyp; inversion Hyp; subst; repeat split; auto
    | destruct Hyp as (-> & Hname & [Hnone|Hnone]);
      try discriminate Hname; try discriminate Hnone; reflexivity
    | try discriminate Hyp; inversion Hyp; subst; repeat split; auto
    | destruct Hyp as (-> & Hname & [Hnone|Hnone]);
      try discriminate Hname; try discriminate Hnone; reflexivity ].
Qed.

(** X13: when [define_search_vector] returns, the listeners registered
    before are kept, in order; for a class with [Searchable] among its own
    bases four listeners are added after them, each for the event
    [after_create] on the table of the class, three for PostgreSQL and the
    last for MySQL; for any other class nothing is added. *)
Theorem X13_define_search_vector_registers (cls : pyclass)
  (registry registry' : list listener) :
  Searchable.define_search_vector cls registry = Ok registry' ->
  if Searchable_in_bases cls then
    exists table new,
      __table__ (attrs_of cls) = Some table
      /\ registry' = List.app registry new
      /\ map target new = [table; table; table; table]
      /\ map identifier new
         = ["after_create"; "after_create"; "after_create"; "after_create"]
      /\ map (fun l => execute_if_dialect (fn l)) new
         = ["postgresql"; "postgresql"; "postgresql"; "mysql"]
      /\ __searchable_columns__ (attrs_of cls) <> []
  else registry' = registry.
Proof.
  unfold Searchable.define_search_vector.
  destruct (Searchable_in_bases cls); cbn [negb];
    [|intros Heq; now inversion Heq].
  destruct (__searchable_columns__ (attrs_of cls)) as [|column columns];
    [discriminate|].
  destruct (Searchable.__make_ddls cls) as [ddls|] eqn:Hddls;
    [|discriminate].
  pose proof (make_ddls_shape cls ddls Hddls) as Hshape. cbn [bind].
  destruct ddls as [|d1 [|d2 [|d3 [|d4 [|d5 ddls]]]]]; try discriminate.
  destruct (__table__ (attrs_of cls)) as [table|]; [|discriminate].
  cbn [getattr bind]. intros Heq. inversion Heq.
  exists table. eexists. split; [reflexivity|]. split; [reflexivity|].
  cbn [map target identifier fn]. repeat split; try exact Hshape.
  discriminate.
Qed.

Lemma X13_define_search_vector_registers_witness :
  exists new,
    Searchable.define_search_vector
      (Class [Sample.Base; SearchableClass]
         {| __name__ := "Article";
            __tablename__ := Some "article";
            __table__ := Some "article";
            __search_options__ := None;
            __searchable_columns__ := ["name"; "content"];
            __search_vector_name__ := "search_vector";
            __search_catalog__ := "pg_catalog.english";
            __search_trigger_name__ := Some "article_search_update";
            __search_index_name__ := Some "article_search_index" |})
      []
    = Ok new
    /\ map target new = ["article"; "article"; "article"; "article"].
Proof.
  match goal with
  | |- exists new, Searchable.define_search_vector ?c [] = _ /\ _ =>
      pose proof (X13_define_search_vector_registers c [] _ eq_refl) as HX;
      change (Searchable_in_bases c) with true in HX
  end.
  cbv beta iota in HX.
  destruct HX as (table & new & Htable & Hnew & Htargets & _).
  exists new. split.
  - cbn [List.app] in Hnew. rewrite <- Hnew. reflexivity.
  - rewrite Htargets. cbn in Htable. inversion Htable. reflexivity.
Defined.

(** X14: for a model with [Searchable] among its own bases, a table name,
    a table and at least one searchable column, the listener run at class
    instrumentation succeeds: it names trigger and index and registers four
    [after_create] listeners on the table, after the ones already there. *)
Theorem X14_attach_registers_configured (cls : pyclass)
  (registry : list listener) (name table : string) :
  Searchable_in_bases cls = true ->
  __searchable_columns__ (attrs_of cls) <> [] ->
  __tablename__ (attrs_of cls) = Some name ->
  __table__ (attrs_of cls) = Some table ->
  exists cls' new,
    attach_search_indexes cls registry = Ok (cls', List.app registry new)
    /\ map target new = [table; table; table; table]
    /\ map identifier new
       = ["after_create"; "after_create"; "after_create"; "after_create"]
    /\ __search_trigger_name__ (attrs_of cls') <> None
    /\ __search_index_name__ (attrs_of cls') <> None.
Proof.
  intros Hbase Hcolumns Hname Htable.
  pose proof (direct_base_issubclass cls Hbase) as Hsub.
  destruct (direct_base_is_class cls Hbase) as (bases & a & ->).
  cbn [attrs_of] in *.
  unfold Searchable_in_bases in Hbase. cbn [__bases__] in Hbase.
  destruct (__searchable_columns__ a) as [|column columns] eqn:Hcols;
    [contradiction|].
  destruct (__search_trigger_name__ a) as [trigger|] eqn:Htrigger,
    (__search_index_name__ a) as [index|] eqn:Hindex;
    eexists; eexists;
    (split;
     [ unfold attach_search_indexes; rewrite Hsub;
       unfold Searchable.__search_args_init__;
       rewrite Htrigger, Hindex, ?Hname; cbn [getattr bind];
       unfold Searchable.define_search_vector, Searchable_in_bases;
       cbn [__bases__ attrs_of __searchable_columns__];
       rewrite Hbase, Hcols; cbn [negb];
       unfold Searchable.__make_ddls;
       cbn [attrs_of __tablename__ __search_index_name__
              __search_trigger_name__ __table__];
       rewrite ?Hname, ?Htable; cbn [getattr bind]; reflexivity
     | cbn [map target identifier __search_trigger_name__
              __search_index_name__ attrs_of];
       repeat split; discriminate ]).
Qed.

Lemma X14_attach_registers_configured_witness :
  exists cls' new,
    attach_search_indexes Sample.Article [] = Ok (cls', new)
    /\ map target new = ["article"; "article"; "article"; "article"].
Proof.
  destruct (X14_attach_registers_configured Sample.Article []
              "article" "article" eq_refl ltac:(discriminate)
              eq_refl eq_refl)
    as (cls' & new & Hattach & Htargets & _).
  exists cls', new. split; [exact Hattach | exact Htargets].
Defined.

(** X15: the listener run at class instrumentation registers nothing for
    a class without [Searchable] among its own bases: a class that does
    not derive from [Searchable] comes back as it is, and a class that
    derives from it through a parent only gets its trigger and index
    names, or [AttributeError] when it has no table name for them. *)
Theorem X15_attach_indirect_registers_nothing (cls : pyclass)
  (registry : list listener) :
  Searchable_in_bases cls = false ->
  attach_search_indexes cls registry
  = if issubclass_Searchable cls then
      cls' <- Searchable.__search_args_init__ cls ;; Ok (cls', registry)
    else Ok (cls, registry).
Proof.
  intros Hbase. unfold attach_search_indexes.
  destruct (issubclass_Searchable cls); [|reflexivity].
  destruct (Searchable.__search_args_init__ cls) as [cls'|e] eqn:Hinit;
    [|reflexivity].
  cbn [bind]. unfold Searchable.define_search_vector.
  destruct (search_args_init_keeps cls cls' Hinit) as (Hbases & _).
  unfold Searchable_in_bases in *. now rewrite Hbases, Hbase.
Qed.

Lemma X15_attach_indirect_registers_nothing_witness :
  exists cls',
    attach_search_indexes
      (Class [Sample.Article] (Sample.model "Review" (Some "review") [])) []
    = Ok (cls', [])
    /\ __search_index_name__ (attrs_of cls') = Some "review_search_index".
Proof.
  eexists. split.
  - rewrite (X15_attach_indirect_registers_nothing
               (Class [Sample.Article]
                  (Sample.model "Review" (Some "review") [])) [] eq_refl).
    reflexivity.
  - reflexivity.
Defined.

End SchemaFurther.

Section SchemaErrors.

(** X16: for a class with [Searchable] among its own bases and at least
    one searchable column, [define_search_vector] raises exactly when the
    table name, the index name, the trigger name or the table is missing,
    and what it raises is [AttributeError]; so it fails on a class whose
    trigger and index names were not set by [__search_args_init__]. *)
Theorem X16_define_search_vector_missing_attribute (cls : pyclass)
  (registry : list listener) (e : pyexn) :
  Searchable_in_bases cls = true ->
  __searchable_columns__ (attrs_of cls) <> [] ->
  Searchable.define_search_vector cls registry = Raise e
  <-> e = AttributeError
      /\ (__tablename__ (attrs_of cls) = None
          \/ __search_index_name__ (attrs_of cls) = None
          \/ __search_trigger_name__ (attrs_of cls) = None
          \/ __table__ (attrs_of cls) = None).
Proof.
  intros Hbase Hcolumns. unfold Searchable.define_search_vector.
  rewrite Hbase. cbn [negb].
  destruct (__searchable_columns__ (attrs_of cls)) as [|column columns];
    [contradiction|].
  unfold Searchable.__make_ddls, bind, getattr.
  destruct (__tablename__ (attrs_of cls)) as [name|].
  2: { split; [intros Heq; inversion Heq; auto | now intros (-> & _)]. }
  destruct (__search_index_name__ (attrs_of cls)) as [index|].
  2: { split; [intros Heq; inversion Heq; auto | now intros (-> & _)]. }
  destruct (__search_trigger_name__ (attrs_of cls)) as [trigger|].
  2: { split; [intros Heq; inversion Heq; auto 6 | now intros (-> & _)]. }
  destruct (__table__ (attrs_of cls)) as [table|].
  - split; [discriminate|].
    intros (_ & [Hnone|[Hnone|[Hnone|Hnone]]]); discriminate.
  - split; [intros Heq; inversion Heq; auto 6 | now intros (-> & _)].
Qed.

Lemma X16_define_search_vector_missing_attribute_witness :
  Searchable.define_search_vector Sample.Article [] = Raise AttributeError.
Proof.
  apply (X16_define_search_vector_missing_attribute Sample.Article []
           AttributeError eq_refl).
  - discriminate.
  - split; [reflexivity|]. right. left. reflexivity.
Defined.

End SchemaErrors.

(** ** Searching twice *)

Section SearchFurther.

Context {Q : Type} `{QueryContext Q}.

(** X17: two searches in a row, with the same given table and language,
    attach the same predicate twice and bind the one parameter [term]
    twice, first to the tokens of the first raw query, then to those of the
    second: both predicates read the parameter [term]. *)
Theorem X17_search_twice (query : Q) (first second : string)
  (tablename language : pystr) :
  not_ tablename = false ->
  safe_search_terms first default_wildcard <> [] ->
  safe_search_terms second default_wildcard <> [] ->
  (query' <- search query first tablename language ;;
   search query' second tablename language)
  = Ok (query_params
          (query_filter
             (query_params
                (query_filter query (predicate tablename language))
                "term"
                (join " & " (safe_search_terms first default_wildcard)))
             (predicate tablename language))
          "term"
          (join " & " (safe_search_terms second default_wildcard))).
Proof.
  intros Hgiven Hfirst Hsecond.
  rewrite (search_with_terms query first tablename language Hfirst).
  rewrite (search_filter_given query first tablename language Hgiven).
  cbn [bind].
  rewrite (search_with_terms _ second tablename language Hsecond).
  now rewrite (search_filter_given _ second tablename language Hgiven).
Qed.

End SearchFurther.

Section SearchFurtherWitness.

Import Sample.

Lemma X17_search_twice_witness :
  (query' <- search (query_of Article false) "star" (Some "film") None ;;
   search query' "wars" (Some "film") None)
  = Ok {| _entities := [Article];
          criteria :=
            [dquote ++ "film" ++ dquote
             ++ ".search_vector @@ to_tsquery(:term)";
             dquote ++ "film" ++ dquote
             ++ ".search_vector @@ to_tsquery(:term)"];
          bound := [("term", "wars:*"); ("term", "star:*")];
          mixes_in_SearchQueryMixin := false |}.
Proof.
  rewrite (X17_search_twice (query_of Article false) "star" "wars"
             (Some "film") None eq_refl
             ltac:(discriminate) ltac:(discriminate)).
  reflexivity.
Defined.

End SearchFurtherWitness.

Section FurtherWitnesses.

Lemma X2_no_terms_iff_only_illegal_witness :
  all_chars illegal " (:) |&!*@# " = true
  /\ safe_search_terms " (:) |&!*@# " default_wildcard = [].
Proof.
  split; [reflexivity|].
  apply (proj2 (X2_no_terms_iff_only_illegal " (:) |&!*@# "
                  default_wildcard)).
  reflexivity.
Defined.

Lemma X12_search_args_init_raises_witness :
  Searchable.__search_args_init__
    (Class [SearchableClass] (Sample.model "Note" None ["body"]))
  = Raise AttributeError.
Proof.
  apply (proj2 (X12_search_args_init_raises [SearchableClass]
                  (Sample.model "Note" None ["body"]) AttributeError)).
  split; [reflexivity|]. split; [reflexivity|]. left. reflexivity.
Defined.

End FurtherWitnesses.
